(** * web-freelance-crm: the website audit pipeline

    A shallow embedding of [src/WebsiteAudit/index.js] (class [WebsiteAudit]),
    of the streaming handler [auditWebsiteWithStreaming] of
    [src/routes/audit.js] and of the inline handler of
    [src/unnamed/part_001], with the properties of the audit specification
    stated and settled over it.

    Conventions of the embedding.
    - JavaScript strings are [string]s; the texts handled are taken over the
      ASCII range (white space is the ASCII part of the class [\s],
      [toLowerCase] maps [A-Z] to [a-z]).  Where a statement would not carry
      over to a text with other characters, it has the hypothesis
      [is_ascii_text].
    - JavaScript numbers are the type [number]: an exact rational, [NaN] or
      an infinity.  The rounding error of IEEE doubles and the sign of zero
      are not represented.
    - The collaborators of the pipeline (HTTP client, HTML parser, URL
      resolution, browser audit, readability heuristic) are the fields of a
      record [Env]; the code is a function of it.
    - Asynchronous code is sequential here: every [await] is a bind of the
      monad [M], which threads the trace of the effects performed and
      carries a thrown error. *)

From Stdlib Require Import String Ascii List ZArith QArith Qround Qabs Bool.
From Stdlib Require Import Lia Lqa Permutation DecimalString.
Import ListNotations.

Close Scope Q_scope.
Local Open Scope string_scope.
Local Open Scope list_scope.

(** ** JavaScript numbers *)

Module JsNumber.

Local Open Scope Q_scope.

Inductive number : Type :=
| Num (q : Q)
| NaN
| Inf (negative : bool).

Definition of_nat (n : nat) : number := Num (inject_Z (Z.of_nat n)).

Definition Qneg_b (q : Q) : bool := negb (Qle_bool 0 q).
Definition Qzero_b (q : Q) : bool := Qeq_bool q 0.

(** [a / b] *)
Definition div (a b : number) : number :=
  match a, b with
  | NaN, _ | _, NaN => NaN
  | Num x, Num y =>
      if Qzero_b y
      then (if Qzero_b x then NaN else Inf (Qneg_b x))
      else Num (x / y)
  | Num _, Inf _ => Num 0
  | Inf s, Num y => Inf (xorb s (Qneg_b y))
  | Inf _, Inf _ => NaN
  end.

(** [a * b] *)
Definition mul (a b : number) : number :=
  match a, b with
  | NaN, _ | _, NaN => NaN
  | Num x, Num y => Num (x * y)
  | Num x, Inf s | Inf s, Num x =>
      if Qzero_b x then NaN else Inf (xorb s (Qneg_b x))
  | Inf s, Inf t => Inf (xorb s t)
  end.

(** [a + b] *)
Definition add (a b : number) : number :=
  match a, b with
  | NaN, _ | _, NaN => NaN
  | Num x, Num y => Num (x + y)
  | Num _, Inf s | Inf s, Num _ => Inf s
  | Inf s, Inf t => if Bool.eqb s t then Inf s else NaN
  end.

Definition opp (a : number) : number :=
  match a with
  | NaN => NaN
  | Num x => Num (- x)
  | Inf s => Inf (negb s)
  end.

(** [a - b] *)
Definition sub (a b : number) : number := add a (opp b).

(** [Math.round]: the integer nearest to the argument, the larger one on
    a tie. *)
Definition round_half_up (q : Q) : Z := Qfloor (q + (1 # 2)).

Definition Math_round (a : number) : number :=
  match a with
  | Num x => Num (inject_Z (round_half_up x))
  | other => other
  end.

(** Decimal digits of a natural number, as [Number.prototype.toFixed]
    prints the integer part. *)
Definition digits (n : Z) : string :=
  NilZero.string_of_uint (N.to_uint (Z.to_N n)).

Definition digit (d : Z) : ascii := ascii_of_N (48 + Z.to_N d).

(** [x.toFixed(2)].  For a finite [x] below [10^21] in magnitude: the sign,
    then the integer [n] for which [n / 100] is nearest to [|x|] (the
    larger on a tie), printed with two fractional digits.  At [10^21] and
    above [toFixed] returns [ToString(x)], which is the parameter
    [toString]. *)
Definition toFixed2 (toString : Q -> string) (a : number) : string :=
  match a with
  | NaN => "NaN"
  | Inf false => "Infinity"
  | Inf true => "-Infinity"
  | Num x =>
      if Qle_bool (inject_Z (10 ^ 21)) (Qabs x) then toString x
      else
        let n := round_half_up (Qabs x * 100) in
        (if Qneg_b x then "-" else "")
          ++ digits (n / 100) ++ "."
          ++ String (digit ((n mod 100) / 10))
               (String (digit (n mod 10)) EmptyString)
  end.

End JsNumber.
Import JsNumber.

(** ** JavaScript strings *)

Module JsString.

(** The ASCII members of the regular-expression class [\s]. *)
Definition is_space (c : ascii) : bool :=
  let n := nat_of_ascii c in
  (Nat.eqb n 9 || Nat.eqb n 10 || Nat.eqb n 11 || Nat.eqb n 12
   || Nat.eqb n 13 || Nat.eqb n 32)%bool.

(** The class [[.!?]]. *)
Definition is_sentence_end (c : ascii) : bool :=
  let n := nat_of_ascii c in
  (Nat.eqb n 46 || Nat.eqb n 33 || Nat.eqb n 63)%bool.

Definition lower (c : ascii) : ascii :=
  let n := nat_of_ascii c in
  if (Nat.leb 65 n && Nat.leb n 90)%bool then ascii_of_nat (n + 32) else c.

(** [s.toLowerCase()] *)
Fixpoint toLowerCase (s : string) : string :=
  match s with
  | EmptyString => EmptyString
  | String c s' => String (lower c) (toLowerCase s')
  end.

(** The class [[aeiouy]] with the flag [i]. *)
Definition is_vowel (c : ascii) : bool :=
  let n := nat_of_ascii (lower c) in
  (Nat.eqb n 97 || Nat.eqb n 101 || Nat.eqb n 105 || Nat.eqb n 111
   || Nat.eqb n 117 || Nat.eqb n 121)%bool.

(** [s.split(/[sep]+/)]: the pieces between the maximal runs of separator
    characters.  A separator at either end leaves an empty piece there,
    and the empty string splits into one empty piece.  [in_run] tells
    that the previous character was a separator. *)
Fixpoint split_runs (sep : ascii -> bool) (in_run : bool) (s : string)
  : list string :=
  match s with
  | EmptyString => [EmptyString]
  | String c s' =>
      if sep c then
        if in_run then split_runs sep true s'
        else EmptyString :: split_runs sep true s'
      else
        match split_runs sep false s' with
        | p :: ps => String c p :: ps
        | [] => [String c EmptyString]
        end
  end.

Definition split (sep : ascii -> bool) (s : string) : list string :=
  split_runs sep false s.

(** [s.split('')] *)
Definition chars (s : string) : list ascii := list_ascii_of_string s.

(** [s.startsWith(p)] *)
Definition startsWith (p s : string) : bool := String.prefix p s.

Fixpoint trimStart (s : string) : string :=
  match s with
  | EmptyString => EmptyString
  | String c s' => if is_space c then trimStart s' else s
  end.

Definition rev (s : string) : string :=
  string_of_list_ascii (List.rev (list_ascii_of_string s)).

(** [s.trim()] *)
Definition trim (s : string) : string := rev (trimStart (rev (trimStart s))).

(** The largest length of a string value. *)
Definition max_string_length : Z := 2 ^ 53 - 1.

(** Truthiness of a string: the empty string is falsy. *)
Definition truthy (s : string) : bool :=
  match s with EmptyString => false | _ => true end.

(** Truthiness of a string-or-[undefined]. *)
Definition truthy_opt (o : option string) : bool :=
  match o with Some s => truthy s | None => false end.

(** [o || ''] *)
Definition or_empty (o : option string) : string :=
  match o with Some s => if truthy s then s else "" | None => "" end.

End JsString.
Import JsString.

(** ** Data model *)

(** A value that is a number or a string ([calculateReadability] returns
    either). *)
Inductive jsval : Type :=
| VNum (n : number)
| VStr (s : string).

(** The object built by [analyzeOnPageSEO]. *)
Record SEOData : Type := {
  title : string;
  metaDescription : string;
  h1Count : nat;
  h2Count : nat;
  imageAltTags : list (option string);
  canonicalLink : string;
  robotsTxt : bool;
  sitemap : bool;
  structuredData : bool;
  brokenLinks : nat;
  keywordDensity : string;
  readability : jsval
}.

(** A Lighthouse category; [score] is a number or [null]. *)
Record Category : Type := { score : option Q }.

(** [lhr.categories]; a category the audit did not return is [undefined]. *)
Record Categories : Type := {
  performance : option Category;
  seo : option Category;
  accessibility : option Category;
  best_practices : option Category
}.

Record LighthouseResults : Type := { categories : Categories }.

(** The object returned by [auditSiteWithProgress], with the keys of the
    source. *)
Record AuditResult : Type := {
  url : string;
  lighthoeResults : Categories;
  seoData : SEOData;
  seoScore : number
}.

(** The object returned by [auditSite] of [index.js]: the score alone (the
    other keys are commented out in the source). *)
Module AuditSite.
Record result : Type := { seoScore : number }.
End AuditSite.

(** What the selectors used by the code return on a document loaded by
    [cheerio.load]. *)
Record Dom : Type := {
  title_text : string;                        (* $('title').text() *)
  meta_description : option string;           (* $('meta[name="description"]').attr('content') *)
  h1_length : nat;                            (* $('h1').length *)
  h2_length : nat;                            (* $('h2').length *)
  img_alt : list (option string);             (* attr('alt') of each $('img') *)
  canonical_href : option string;             (* $('link[rel="canonical"]').attr('href') *)
  jsonld_html : option string;                (* $('script[type="application/ld+json"]').html() *)
  itemscope_length : nat;                     (* $('[itemscope]').length *)
  a_href : list (option string);              (* attr('href') of each $('a') *)
  body_text : string                          (* $('body').text() *)
}.

(** The article returned by [Readability.parse]. *)
Record Article : Type := { textContent : string }.

(** The axios response fields the code reads. *)
Record Response : Type := { status : Z; data : string }.

Inductive http_outcome : Type :=
| Resolved (response : Response)
| Rejected (message : string).

(** ** Errors, effects and the monad *)

Inductive error : Type :=
| TypeError (message : string)
| ReferenceError (message : string)
| AxiosError (message : string)
| ToolError (message : string).

Definition error_message (e : error) : string :=
  match e with
  | TypeError m | ReferenceError m | AxiosError m | ToolError m => m
  end.

(** The events of the response stream, before [JSON.stringify]. *)
Inductive sse : Type :=
| Progress (progress : string)
| Results (results : AuditResult)
| Error (error : string).

Inductive effect : Type :=
| HttpGet (url : string)                 (* axios.get(url) *)
| ChromeLaunch                           (* chromeLauncher.launch(...) *)
| LighthouseRun (url : string)           (* lighthouse(url, options, null) *)
| ChromeKill                             (* chrome.kill() *)
| Status400Json (error : string)         (* res.status(400).json({ error }) *)
| SetHeader (name value : string)        (* res.setHeader(name, value) *)
| ResWrite (event : sse)                 (* res.write(`data: ${JSON.stringify(event)}\n\n`) *)
| ResEnd.                                (* res.end() *)

Definition trace : Type := list effect.

Inductive outcome (A : Type) : Type :=
| Return (a : A)
| Throw (e : error).
Arguments Return {A} a.
Arguments Throw {A} e.

(** A computation performs effects, appended to the trace, and returns or
    throws; the effects performed before a throw stay. *)
Definition M (A : Type) : Type := trace -> outcome A * trace.

Definition ret {A} (a : A) : M A := fun tr => (Return a, tr).

Definition throw {A} (e : error) : M A := fun tr => (Throw e, tr).

Definition bind {A B} (m : M A) (k : A -> M B) : M B :=
  fun tr =>
    match m tr with
    | (Return a, tr') => k a tr'
    | (Throw e, tr') => (Throw e, tr')
    end.

(** [try { m } catch (error) { handler error }] *)
Definition try_catch {A} (m : M A) (handler : error -> M A) : M A :=
  fun tr =>
    match m tr with
    | (Return a, tr') => (Return a, tr')
    | (Throw e, tr') => handler e tr'
    end.

(** [try { m } finally { cleanup }]: the cleanup runs on both exits, and an
    error of the cleanup replaces the outcome. *)
Definition try_finally {A} (m : M A) (cleanup : M unit) : M A :=
  fun tr =>
    match m tr with
    | (r, tr') =>
        match cleanup tr' with
        | (Return _, tr'') => (r, tr'')
        | (Throw e, tr'') => (Throw e, tr'')
        end
    end.

Definition perform (e : effect) : M unit := fun tr => (Return tt, tr ++ [e]).

Definition lift {A} (r : outcome A) : M A := fun tr => (r, tr).

Declare Scope js_scope.
Delimit Scope js_scope with js.
Notation "x <- m ;; k" := (bind m (fun x => k))
  (at level 61, m at next level, right associativity) : js_scope.
Notation "m ;; k" := (bind m (fun _ => k))
  (at level 61, right associativity) : js_scope.
Local Open Scope js_scope.

(** Number of requests already sent in a trace. *)
Fixpoint n_gets (tr : trace) : nat :=
  match tr with
  | [] => 0
  | HttpGet _ :: tr' => S (n_gets tr')
  | _ :: tr' => n_gets tr'
  end.

(** Reading the identifier [x] where the bindings [scope] are visible: an
    identifier bound nowhere throws a [ReferenceError]. *)
Fixpoint read_var {A} (scope : list (string * A)) (x : string) : outcome A :=
  match scope with
  | [] => Throw (ReferenceError (x ++ " is not defined"))
  | (y, v) :: scope' => if String.eqb x y then Return v else read_var scope' x
  end.

(** Cheerio's [.map(f).get()]: an element for which [f] returns
    [undefined] is left out of the result. *)
Definition cheerio_map_get {A} (attrs : list (option A)) : list A :=
  flat_map (fun o => match o with Some a => [a] | None => [] end) attrs.

(** ** The collaborators *)

Record Env : Type := {
  (** [axios.get(url)] as the [k]-th request of the run, [k] counted from 0 *)
  axios_get : nat -> string -> http_outcome;
  (** [cheerio.load(html)] *)
  cheerio_load : string -> Dom;
  (** [new URL(link, baseUrl).href]; [None] when the constructor throws *)
  URL_href : string -> string -> option string;
  (** [await chromeLauncher.launch(...)]: resolves, or rejects with an error *)
  chrome_launch : outcome unit;
  (** [(await lighthouse(url, options, null)).lhr] *)
  lighthouse : string -> outcome LighthouseResults;
  (** [await chrome.kill()] *)
  chrome_kill : outcome unit;
  (** [isProbablyReaderable(new JSDOM(html).window.document)] *)
  isProbablyReaderable : string -> bool;
  (** [new Readability(new JSDOM(html).window.document).parse()], [None]
      for [null] *)
  Readability_parse : string -> option Article;
  (** [ToString] of a number of magnitude [10^21] or more *)
  Number_toString : Q -> string
}.

(** ** The class [WebsiteAudit] ([src/WebsiteAudit/index.js])

    Calls of [console.error] are left out: they touch neither the response
    stream nor a returned value. *)

Section WebsiteAudit.

Variable env : Env.

(** [await axios.get(url)]: the request is recorded, a rejection is a
    throw. *)
Definition axios_get_await (url : string) : M Response :=
  fun tr =>
    match axios_get env (n_gets tr) url with
    | Resolved response => (Return response, tr ++ [HttpGet url])
    | Rejected message => (Throw (AxiosError message), tr ++ [HttpGet url])
    end.

(** [fetchHTML(url)]: [response.data], or [null] when the request fails. *)
Definition fetchHTML (url : string) : M (option string) :=
  try_catch
    (response <- axios_get_await url ;;
     ret (Some (data response)))
    (fun _ => ret None).

(** [runLighthouseAudit(url)]: [result.lhr], or [null] when the launch or
    the audit fails; Chrome is killed in the [finally] block when it was
    launched. *)
Definition runLighthouseAudit (url : string) : M (option LighthouseResults) :=
  match chrome_launch env with
  | Return _ =>
      try_finally
        (try_catch
           (perform ChromeLaunch ;;
            perform (LighthouseRun url) ;;
            lhr <- lift (lighthouse env url) ;;
            ret (Some lhr))
           (fun _ => ret None))
        (perform ChromeKill ;; lift (chrome_kill env))
  | Throw e =>
      (* [chrome] is still undefined in the [finally] block *)
      try_finally
        (try_catch
           (perform ChromeLaunch ;; throw e)
           (fun _ => ret None))
        (ret tt)
  end.

(** [response.status === 200] inside [try], [false] in [catch]. *)
Definition probe_200 (url : string) : M bool :=
  try_catch
    (response <- axios_get_await url ;;
     ret (Z.eqb (status response) 200))
    (fun _ => ret false).

Definition checkRobotsTxt (baseUrl : string) : M bool :=
  probe_200 (baseUrl ++ "/robots.txt").

Definition checkSitemap (baseUrl : string) : M bool :=
  probe_200 (baseUrl ++ "/sitemap.xml").

(** [!!jsonLd || microdata] *)
Definition checkStructuredData (html : string) : bool :=
  let d := cheerio_load env html in
  let jsonLd := jsonld_html d in
  let microdata := Nat.ltb 0 (itemscope_length d) in
  (truthy_opt jsonLd || microdata)%bool.

(** The array [links] of [findBrokenLinks]:
    [$('a').map((i, el) => $(el).attr('href')).get()
       .filter((link) => link && !link.startsWith('#'))]. *)
Definition keep_link (link : string) : bool :=
  (truthy link && negb (startsWith "#" link))%bool.

Definition extract_links (hrefs : list (option string)) : list string :=
  filter keep_link (cheerio_map_get hrefs).

(** [new URL(link, baseUrl).href] *)
Definition new_URL_href (link baseUrl : string) : M string :=
  match URL_href env link baseUrl with
  | Some href => ret href
  | None => throw (TypeError "Invalid URL")
  end.

(** The loop [for (const link of links)] of [findBrokenLinks], carrying
    the counter [brokenLinks]. *)
Fixpoint probe_links (baseUrl : string) (links : list string)
  (brokenLinks : nat) : M nat :=
  match links with
  | [] => ret brokenLinks
  | link :: rest =>
      absoluteUrl <- new_URL_href link baseUrl ;;
      brokenLinks' <-
        try_catch
          (response <- axios_get_await absoluteUrl ;;
           ret (if Z.eqb (status response) 200
                then brokenLinks else S brokenLinks))
          (fun _ => ret (S brokenLinks)) ;;
      probe_links baseUrl rest brokenLinks'
  end.

Definition findBrokenLinks (html baseUrl : string) : M nat :=
  let links := extract_links (a_href (cheerio_load env html)) in
  probe_links baseUrl links 0.

(** The array [words] of [calculateKeywordDensity]:
    [text.split(/\s+/).filter((word) => word.length > 0)]. *)
Definition tokens (text : string) : list string :=
  filter (fun word => Nat.ltb 0 (String.length word)) (split is_space text).

Definition targetKeyword : string := "example".

Definition calculateKeywordDensity (html : string) : string :=
  let text := body_text (cheerio_load env html) in
  let words := tokens text in
  let keywordCount :=
    List.length
      (filter (fun word => String.eqb (toLowerCase word) targetKeyword) words) in
  toFixed2 (Number_toString env)
    (mul (div (of_nat keywordCount) (of_nat (List.length words))) (of_nat 100)).

(** The formula of [calculateReadability] on the extracted text. *)
Definition readability_formula (text : string) : number :=
  let words := List.length (split is_space text) in
  let sentences := List.length (split is_sentence_end text) in
  let syllables := List.length (filter is_vowel (chars text)) in
  sub
    (sub (Num (206835 # 1000)%Q)
         (mul (Num (1015 # 1000)%Q) (div (of_nat words) (of_nat sentences))))
    (mul (Num (846 # 10)%Q) (div (of_nat syllables) (of_nat words))).

(** [calculateReadability(html)].  [article] is the [Readability] object,
    which is never falsy, so the test [if (!article) return 0] does not
    fire; [parsed.textContent] on a [null] result of [parse] throws. *)
Definition calculateReadability (html : string) : outcome jsval :=
  let canRead := isProbablyReaderable env html in
  if negb canRead then Return (VNum (Num 0%Q))
  else
    match Readability_parse env html with
    | None =>
        Throw (TypeError "Cannot read properties of null (reading 'textContent')")
    | Some parsed =>
        let text := textContent parsed in
        Return (VStr (toFixed2 (Number_toString env) (readability_formula text)))
    end.

(** [analyzeOnPageSEO(html, baseUrl)]: the properties of the object
    literal are evaluated in the order written. *)
Definition analyzeOnPageSEO (html baseUrl : string) : M SEOData :=
  let d := cheerio_load env html in
  let title := trim (title_text d) in
  let metaDescription := or_empty (meta_description d) in
  let h1Count := h1_length d in
  let h2Count := h2_length d in
  let imageAltTags := map Some (cheerio_map_get (img_alt d)) in
  let canonicalLink := or_empty (canonical_href d) in
  robotsTxt <- checkRobotsTxt baseUrl ;;
  sitemap <- checkSitemap baseUrl ;;
  let structuredData := checkStructuredData html in
  brokenLinks <- findBrokenLinks html baseUrl ;;
  let keywordDensity := calculateKeywordDensity html in
  readability <- lift (calculateReadability html) ;;
  ret {| title := title; metaDescription := metaDescription;
         h1Count := h1Count; h2Count := h2Count;
         imageAltTags := imageAltTags; canonicalLink := canonicalLink;
         robotsTxt := robotsTxt; sitemap := sitemap;
         structuredData := structuredData; brokenLinks := brokenLinks;
         keywordDensity := keywordDensity; readability := readability |}.

(** [calculateOnPageSEOScore(seoData)] *)
Definition calculateOnPageSEOScore (seoData : SEOData) : nat :=
  let score := 0 in
  let score := if truthy (title seoData) then score + 20 else score in
  let score := if truthy (metaDescription seoData) then score + 20 else score in
  let score := if Nat.eqb (h1Count seoData) 1 then score + 20 else score in
  let score := if truthy (canonicalLink seoData) then score + 20 else score in
  let score :=
    if forallb truthy_opt (imageAltTags seoData) then score + 20 else score in
  score.

(** [generateSEOScore(lighthouseResults, seoData)].  Reading [.score] of an
    absent [seo] category throws; a [null] score times 100 is 0. *)
Definition generateSEOScore (lighthouseResults : LighthouseResults)
  (seoData : SEOData) : outcome number :=
  match seo (categories lighthouseResults) with
  | None =>
      Throw (TypeError "Cannot read properties of undefined (reading 'score')")
  | Some seo_category =>
      let lighthouseSEOScore :=
        mul (match score seo_category with Some x => Num x | None => Num 0%Q end)
            (of_nat 100) in
      let onPageSEOScore := of_nat (calculateOnPageSEOScore seoData) in
      let overallScore :=
        div (add lighthouseSEOScore onPageSEOScore) (of_nat 2) in
      Return (Math_round overallScore)
  end.

(** [auditSiteWithProgress(url, emitProgress)].  Line 235 binds
    [lightushouseResults]; lines 236, 245 and 250 read the identifier
    [lighthouseResults], looked up among the bindings of that type in
    scope. *)
Definition auditSiteWithProgress (url : string) (emitProgress : string -> M unit)
  : M (option AuditResult) :=
  emitProgress "Fetching HTML..." ;;
  html <- fetchHTML url ;;
  if negb (truthy_opt html) then
    emitProgress "Failed to fetch HTML." ;;
    ret None
  else
    let html := or_empty html in
    emitProgress "Running Lighthouse audit..." ;;
    lightushouseResults <- runLighthouseAudit url ;;
    let scope := [("lightushouseResults", lightushouseResults)] in
    lighthouseResults <- lift (read_var scope "lighthouseResults") ;;
    match lighthouseResults with
    | None =>
        emitProgress "Failed to run Lighthouse audit." ;;
        ret None
    | Some lighthouseResults =>
        emitProgress "Analyzing on-page SEO..." ;;
        seoData <- analyzeOnPageSEO html url ;;
        emitProgress "Calculating SEO score..." ;;
        seoScore <- lift (generateSEOScore lighthouseResults seoData) ;;
        emitProgress "Audit complete." ;;
        ret (Some {| url := url;
                     lighthoeResults := categories lighthouseResults;
                     seoData := seoData;
                     seoScore := seoScore |})
    end.

(** [auditSite(url)] *)
Definition auditSite (url : string) : M (option AuditSite.result) :=
  html <- fetchHTML url ;;
  if negb (truthy_opt html) then ret None
  else
    let html := or_empty html in
    lighthouseResults <- runLighthouseAudit url ;;
    match lighthouseResults with
    | None => ret None
    | Some lighthouseResults =>
        seoData <- analyzeOnPageSEO html url ;;
        seoScore <- lift (generateSEOScore lighthouseResults seoData) ;;
        ret (Some {| AuditSite.seoScore := seoScore |})
    end.

End WebsiteAudit.

(** ** The handlers of [/audit]

    The handler [auditWebsiteWithStreaming] of [src/routes/audit.js] and
    the inline handler of [src/unnamed/part_001] (lines 23-57) have the
    same text.  They differ by the module they stand in:
    [src/routes/audit.js] imports nothing, so the identifier
    [WebsiteAudit] read by [new WebsiteAudit()] is bound nowhere there;
    [part_001] imports it from [./WebsiteAudit/index.js]. *)

(** The class [WebsiteAudit] as a handler uses it: the method called on
    the instance (the constructor only stores the Lighthouse options). *)
Record WebsiteAuditClass : Type := {
  auditSiteWithProgress_of :
    string -> (string -> M unit) -> M (option AuditResult)
}.

Definition WebsiteAudit_class (env : Env) : WebsiteAuditClass :=
  {| auditSiteWithProgress_of := auditSiteWithProgress env |}.

(** The text of the handler, in a module where the bindings [scope] of
    classes are visible.  [new WebsiteAudit()] stands after the headers
    and outside the [try] block. *)
Definition audit_handler (scope : list (string * WebsiteAuditClass))
  (site : option string) : M unit :=
  if negb (truthy_opt site) then
    perform (Status400Json "Site URL is required.")
  else
    let site := or_empty site in
    perform (SetHeader "Content-Type" "text/event-stream") ;;
    perform (SetHeader "Cache-Control" "no-cache") ;;
    perform (SetHeader "Connection" "keep-alive") ;;
    websiteAudit <- lift (read_var scope "WebsiteAudit") ;;
    let emitProgress := fun message => perform (ResWrite (Progress message)) in
    try_catch
      (results <- auditSiteWithProgress_of websiteAudit site emitProgress ;;
       match results with
       | Some results => perform (ResWrite (Results results))
       | None => perform (ResWrite (Error "Audit failed."))
       end)
      (fun error => perform (ResWrite (Error (error_message error)))) ;;
    perform ResEnd.

(** [auditWebsiteWithStreaming] of [src/routes/audit.js]: no class is in
    scope.  The handler is run in a world [env] like the rest of the code;
    as the class is not bound, the world is not consulted. *)
Definition auditWebsiteWithStreaming (env : Env) (site : option string)
  : M unit :=
  audit_handler [] site.

(** The inline handler [app.get('/audit', ...)] of [src/unnamed/part_001]:
    the class imported on line 5 is in scope. *)
Definition inline_audit_handler (env : Env) (site : option string) : M unit :=
  audit_handler [("WebsiteAudit", WebsiteAudit_class env)] site.

(** ** The TypeScript variant of the class (second part of
    [src/routes/audit.js]) *)

Module TS.

(** [lighthouseResults.categories.seo?.score ?? 0] *)
Definition generateSEOScore (lighthouseResults : LighthouseResults)
  (seoData : SEOData) : number :=
  let lighthouseSEOScore :=
    match seo (categories lighthouseResults) with
    | Some seo_category =>
        match score seo_category with Some x => Num x | None => Num 0%Q end
    | None => Num 0%Q
    end in
  let onPageSEOScore := of_nat (calculateOnPageSEOScore seoData) in
  let overallScore :=
    div (add (mul lighthouseSEOScore (of_nat 100)) onPageSEOScore) (of_nat 2) in
  Math_round overallScore.

(** [const article = new Readability(dom.window.document).parse();
     if (!article) return ''] *)
Definition calculateReadability (env : Env) (html : string) : string :=
  match Readability_parse env html with
  | None => ""
  | Some article =>
      toFixed2 (Number_toString env) (readability_formula (textContent article))
  end.

(** The methods [fetchHTML], [checkRobotsTxt], [checkSitemap],
    [checkStructuredData], [findBrokenLinks], [calculateKeywordDensity] and
    [calculateOnPageSEOScore] have the same text as in [index.js] and are
    shared with it. *)

(** The interface [AuditResults]. *)
Record AuditResults : Type := {
  url : string;
  lighthouseResults : Categories;
  seoData : SEOData;
  seoScore : number
}.

(** [runLighthouseAudit(url)]: the four categories of [result.lhr] are
    copied into a new object. *)
Definition runLighthouseAudit (env : Env) (url : string)
  : M (option LighthouseResults) :=
  match chrome_launch env with
  | Return _ =>
      try_finally
        (try_catch
           (perform ChromeLaunch ;;
            perform (LighthouseRun url) ;;
            lhr <- lift (lighthouse env url) ;;
            ret (Some
                   {| categories :=
                        {| performance := performance (categories lhr);
                           seo := seo (categories lhr);
                           accessibility := accessibility (categories lhr);
                           best_practices := best_practices (categories lhr) |} |}))
           (fun _ => ret None))
        (perform ChromeKill ;; lift (chrome_kill env))
  | Throw e =>
      try_finally
        (try_catch
           (perform ChromeLaunch ;; throw e)
           (fun _ => ret None))
        (ret tt)
  end.

(** [analyzeOnPageSEO(html, baseUrl)] *)
Definition analyzeOnPageSEO (env : Env) (html baseUrl : string) : M SEOData :=
  let d := cheerio_load env html in
  let title := trim (title_text d) in
  let metaDescription := or_empty (meta_description d) in
  let h1Count := h1_length d in
  let h2Count := h2_length d in
  let imageAltTags := map Some (cheerio_map_get (img_alt d)) in
  let canonicalLink := or_empty (canonical_href d) in
  robotsTxt <- checkRobotsTxt env baseUrl ;;
  sitemap <- checkSitemap env baseUrl ;;
  let structuredData := checkStructuredData env html in
  brokenLinks <- findBrokenLinks env html baseUrl ;;
  let keywordDensity := calculateKeywordDensity env html in
  let readability := VStr (calculateReadability env html) in
  ret {| title := title; metaDescription := metaDescription;
         h1Count := h1Count; h2Count := h2Count;
         imageAltTags := imageAltTags; canonicalLink := canonicalLink;
         robotsTxt := robotsTxt; sitemap := sitemap;
         structuredData := structuredData; brokenLinks := brokenLinks;
         keywordDensity := keywordDensity; readability := readability |}.

(** [auditSite(url)] *)
Definition auditSite (env : Env) (url : string) : M (option AuditResults) :=
  html <- fetchHTML env url ;;
  if negb (truthy_opt html) then ret None
  else
    let html := or_empty html in
    lighthouseResults <- runLighthouseAudit env url ;;
    match lighthouseResults with
    | None => ret None
    | Some lighthouseResults =>
        seoData <- analyzeOnPageSEO env html url ;;
        let seoScore := generateSEOScore lighthouseResults seoData in
        ret (Some {| url := url;
                     lighthouseResults := categories lighthouseResults;
                     seoData := seoData;
                     seoScore := seoScore |})
    end.

End TS.

(** ** Observations on a trace *)

(** The events written to the response, in order. *)
Definition writes (tr : trace) : list sse :=
  flat_map (fun e => match e with ResWrite ev => [ev] | _ => [] end) tr.

Definition is_progress (ev : sse) : bool :=
  match ev with Progress _ => true | _ => false end.

(** A terminal event is a [results] or an [error] event. *)
Definition is_terminal (ev : sse) : bool := negb (is_progress ev).

Definition progress_labels (evs : list sse) : list string :=
  flat_map (fun ev => match ev with Progress l => [l] | _ => [] end) evs.

(** The trace of one request, started on an idle connection. *)
Definition run_request (env : Env) (site : option string) : trace :=
  snd (auditWebsiteWithStreaming env site []).

(** A request whose outcome counts as a broken link in [findBrokenLinks]. *)
Definition is_broken (r : http_outcome) : bool :=
  match r with
  | Resolved response => negb (Z.eqb (status response) 200)
  | Rejected _ => true
  end.

(** The broken ones among the requests [urls], sent as the requests number
    [k], [k+1], ... of the run. *)
Fixpoint broken_from (env : Env) (k : nat) (urls : list string) : nat :=
  match urls with
  | [] => 0
  | u :: us =>
      (if is_broken (axios_get env k u) then 1 else 0) + broken_from env (S k) us
  end.

(** The requests of a trace, in order. *)
Definition requests (tr : trace) : list string :=
  flat_map (fun e => match e with HttpGet u => [u] | _ => [] end) tr.

Definition is_launch (e : effect) : bool :=
  match e with ChromeLaunch => true | _ => false end.

Definition is_kill (e : effect) : bool :=
  match e with ChromeKill => true | _ => false end.

(** Characters of a string, all of them white space. *)
Definition all_space (s : string) : bool :=
  forallb is_space (list_ascii_of_string s).

(** A string without a white-space character. *)
Definition no_space (s : string) : bool :=
  forallb (fun c => negb (is_space c)) (list_ascii_of_string s).

(** A request answered with status 200. *)
Definition is_200 (r : http_outcome) : bool :=
  match r with
  | Resolved response => Z.eqb (status response) 200
  | Rejected _ => false
  end.

(** The progress callback of the handlers. *)
Definition emitProgress (message : string) : M unit :=
  perform (ResWrite (Progress message)).

(** The three header effects that open the event stream. *)
Definition sse_headers : trace :=
  [ SetHeader "Content-Type" "text/event-stream";
    SetHeader "Cache-Control" "no-cache";
    SetHeader "Connection" "keep-alive" ].

(** A page request that [auditSiteWithProgress] takes as failed: it is
    rejected, or its body is empty ([!html]). *)
Definition fetch_failed (r : http_outcome) : bool :=
  match r with
  | Resolved response => negb (truthy (data response))
  | Rejected _ => true
  end.

(** The terminal event a handler writes for an outcome of
    [auditSiteWithProgress]: [{results}] for an object, [{error: 'Audit
    failed.'}] for [null], [{error: error.message}] for a thrown error. *)
Definition terminal_event (out : outcome (option AuditResult)) : sse :=
  match out with
  | Return (Some results) => Results results
  | Return None => Error "Audit failed."
  | Throw e => Error (error_message e)
  end.

(** The trace of one request to the inline handler of [part_001], started
    on an idle connection. *)
Definition inline_run_request (env : Env) (site : option string) : trace :=
  snd (inline_audit_handler env site []).

(** A text whose characters are all in the ASCII range. *)
Definition is_ascii_text (s : string) : bool :=
  forallb (fun c => Nat.ltb (nat_of_ascii c) 128) (list_ascii_of_string s).

(** ** The specification's wording, for comparison with the code *)

Module Spec.

(** The progress labels of section 4.5, its ellipsis character written as
    three dots. *)
Definition progress_labels : list string :=
  [ "Fetching HTML..."; "Running quality audit..."; "Analyzing on-page SEO...";
    "Calculating score..."; "Audit complete." ].

(** Section 4.3, broken-link check: all anchor hrefs, except the in-page
    fragment links (leading [#]). *)
Definition links (hrefs : list (option string)) : list string :=
  filter (fun link => negb (startsWith "#" link)) (cheerio_map_get hrefs).

(** Each link is resolved against the base URL and probed with GET; those
    that fail or return a status other than success are counted. *)
Fixpoint broken_from (env : Env) (baseUrl : string) (k : nat)
  (ls : list string) : nat :=
  match ls with
  | [] => 0
  | link :: rest =>
      match URL_href env link baseUrl with
      | Some u =>
          (if is_broken (axios_get env k u) then 1 else 0)
          + broken_from env baseUrl (S k) rest
      | None => 1 + broken_from env baseUrl k rest
      end
  end.

Definition brokenLinkCount (env : Env) (html baseUrl : string) (k : nat) : nat :=
  broken_from env baseUrl k (links (a_href (cheerio_load env html))).

(** A decimal string with two fractional digits: an optional sign, at
    least one digit, a point, two digits. *)
Definition is_digit (c : ascii) : bool :=
  (Nat.leb 48 (nat_of_ascii c) && Nat.leb (nat_of_ascii c) 57)%bool.

Definition all_digits (s : string) : bool :=
  forallb is_digit (list_ascii_of_string s).

Definition decimal2 (s : string) : Prop :=
  exists sign int frac : string,
    s = (sign ++ int ++ "." ++ frac)%string
    /\ (sign = "" \/ sign = "-")
    /\ int <> "" /\ all_digits int = true
    /\ all_digits frac = true /\ String.length frac = 2.

(** An image alt-tag that is present and non-empty. *)
Definition alt_present (alt : option string) : Prop :=
  exists s, alt = Some s /\ s <> "".

End Spec.

(** ** Sample collaborators, for concrete runs *)

Module Sample.

Definition site : string := "https://example.com".

Definition empty_dom : Dom :=
  {| title_text := ""; meta_description := None; h1_length := 0;
     h2_length := 0; img_alt := []; canonical_href := None;
     jsonld_html := None; itemscope_length := 0; a_href := [];
     body_text := "" |}.

Definition dom_links (hrefs : list (option string)) (text : string) : Dom :=
  {| title_text := ""; meta_description := None; h1_length := 0;
     h2_length := 0; img_alt := []; canonical_href := None;
     jsonld_html := None; itemscope_length := 0; a_href := hrefs;
     body_text := text |}.

Definition dom_body (text : string) : Dom := dom_links [] text.

(** Sample documents. *)
Definition html_abc : string :=
  "<body><a href='/a'>A</a><a href='/b'>B</a><a href='/c'>C</a></body>".
Definition html_bb : string :=
  "<body><a href='/b'>B</a><a href='/b'>B</a></body>".
Definition html_empty_href : string := "<body><a href=''>x</a></body>".
Definition html_mixed : string :=
  "<body><a href=''>y</a><a href='/b'>B</a></body>".
Definition html_b : string := "<body><a href='/b'>B</a></body>".
Definition html_bad_url : string := "<body><a href='http://'>x</a></body>".
Definition html_blank : string := "<html><body> </body></html>".
Definition html_words1 : string := "<body>Example page</body>".
Definition html_words2 : string := "<body>page Example</body>".
Definition html_full : string :=
  "<title>T</title><meta name='description' content='D'><h1>H</h1><img alt='A'><link rel='canonical' href='https://example.com'>".

Definition load (html : string) : Dom :=
  if String.eqb html html_abc then
    dom_links [Some "/a"; Some "/b"; Some "/c"] "ABC"
  else if String.eqb html html_bb then dom_links [Some "/b"; Some "/b"] "BB"
  else if String.eqb html html_empty_href then dom_links [Some ""] "x"
  else if String.eqb html html_mixed then
    dom_links [Some ""; Some "/b"] "yB"
  else if String.eqb html html_b then dom_links [Some "/b"] "B"
  else if String.eqb html html_bad_url then dom_links [Some "http://"] "x"
  else if String.eqb html html_blank then dom_body " "
  else if String.eqb html html_words1 then dom_body "Example page"
  else if String.eqb html html_words2 then dom_body "page Example"
  else if String.eqb html html_full then
    {| title_text := "T"; meta_description := Some "D"; h1_length := 1;
       h2_length := 0; img_alt := [Some "A"];
       canonical_href := Some "https://example.com";
       jsonld_html := None; itemscope_length := 0; a_href := [];
       body_text := "H" |}
  else empty_dom.

(** [new URL(link, baseUrl).href] on the links of the sample documents:
    the empty link resolves to the base, a root-relative link to the
    origin followed by the path, and ['http://'] has no host and is
    refused. *)
Definition resolve (link baseUrl : string) : option string :=
  if String.eqb link "" then Some (baseUrl ++ "/")%string
  else if String.eqb link "http://" then None
  else if startsWith "/" link then Some (baseUrl ++ link)%string
  else Some link.

Definition ok (body : string) : http_outcome :=
  Resolved {| status := 200; data := body |}.

(** A network where the site answers with [page], [/a] and [/robots.txt]
    answer 200, [/b] answers 404 and every other request fails. *)
Definition network (page : string) (k : nat) (url : string) : http_outcome :=
  if String.eqb url site then ok page
  else if String.eqb url "https://example.com/a" then ok "A"
  else if String.eqb url "https://example.com/robots.txt" then ok "User-agent: *"
  else if String.eqb url "https://example.com/b" then
    Resolved {| status := 404; data := "Not Found" |}
  else Rejected "Network Error".

Definition lhr : LighthouseResults :=
  {| categories :=
       {| performance := Some {| score := Some (99 # 100)%Q |};
          seo := Some {| score := Some 1%Q |};
          accessibility := Some {| score := Some (95 # 100)%Q |};
          best_practices := Some {| score := Some (92 # 100)%Q |} |} |}.

(** The site is up and serves [page]; Chrome and Lighthouse succeed; no
    document is judged readerable. *)
Definition online (page : string) : Env :=
  {| axios_get := network page;
     cheerio_load := load;
     URL_href := resolve;
     chrome_launch := Return tt;
     lighthouse := fun _ => Return lhr;
     chrome_kill := Return tt;
     isProbablyReaderable := fun _ => false;
     Readability_parse := fun _ => None;
     Number_toString := fun _ => "1e+21" |}.

(** Every request is rejected. *)
Definition offline : Env :=
  {| axios_get := fun _ _ => Rejected "Network Error";
     cheerio_load := load;
     URL_href := resolve;
     chrome_launch := Return tt;
     lighthouse := fun _ => Return lhr;
     chrome_kill := Return tt;
     isProbablyReaderable := fun _ => false;
     Readability_parse := fun _ => None;
     Number_toString := fun _ => "1e+21" |}.

(** A world given by its parts: the network, the outcomes of the Chrome
    launch, of Lighthouse and of the kill, and the readability heuristic. *)
Definition world (net : nat -> string -> http_outcome)
  (launch : outcome unit) (audit : outcome LighthouseResults)
  (kill : outcome unit) (readerable : bool) (article : option Article) : Env :=
  {| axios_get := net;
     cheerio_load := load;
     URL_href := resolve;
     chrome_launch := launch;
     lighthouse := fun _ => audit;
     chrome_kill := kill;
     isProbablyReaderable := fun _ => readerable;
     Readability_parse := fun _ => article;
     Number_toString := fun _ => "1e+21" |}.

(** Chrome cannot be launched. *)
Definition no_chrome : Env :=
  world (network html_full) (Throw (ToolError "spawn ENOENT")) (Return lhr)
    (Return tt) false None.

(** Lighthouse rejects. *)
Definition audit_fails : Env :=
  world (network html_full) (Return tt) (Throw (ToolError "PROTOCOL_TIMEOUT"))
    (Return tt) false None.

(** The audit succeeds and killing Chrome rejects. *)
Definition kill_fails : Env :=
  world (network html_full) (Return tt) (Return lhr)
    (Throw (ToolError "EPERM")) false None.

(** The page is judged readerable and an article is extracted. *)
Definition readerable (page text : string) : Env :=
  world (network page) (Return tt) (Return lhr) (Return tt) true
    (Some {| textContent := text |}).

(** The page is judged readerable and no article is extracted. *)
Definition no_article (page : string) : Env :=
  world (network page) (Return tt) (Return lhr) (Return tt) true None.

(** Every request is answered with status 200. *)
Definition all_ok : Env :=
  world (fun _ _ => ok "") (Return tt) (Return lhr) (Return tt) false None.

(** The world [e] with every document parsed as [d]. *)
Definition with_dom (d : Dom) (e : Env) : Env :=
  {| axios_get := axios_get e;
     cheerio_load := fun _ => d;
     URL_href := URL_href e;
     chrome_launch := chrome_launch e;
     lighthouse := lighthouse e;
     chrome_kill := chrome_kill e;
     isProbablyReaderable := isProbablyReaderable e;
     Readability_parse := Readability_parse e;
     Number_toString := Number_toString e |}.

(** The world [e] with the documents [docs] parsed as listed. *)
Fixpoint lookup_doc (docs : list (string * Dom)) (html : string) : Dom :=
  match docs with
  | [] => empty_dom
  | (h, d) :: docs' => if String.eqb html h then d else lookup_doc docs' html
  end.

Definition with_docs (docs : list (string * Dom)) (e : Env) : Env :=
  {| axios_get := axios_get e;
     cheerio_load := lookup_doc docs;
     URL_href := URL_href e;
     chrome_launch := chrome_launch e;
     lighthouse := lighthouse e;
     chrome_kill := chrome_kill e;
     isProbablyReaderable := isProbablyReaderable e;
     Readability_parse := Readability_parse e;
     Number_toString := Number_toString e |}.

Definition html_blank_title : string :=
  "<html><head><title>   </title></head><body>page</body></html>".
Definition dom_blank_title : Dom :=
  {| title_text := "   "; meta_description := None; h1_length := 0;
     h2_length := 0; img_alt := []; canonical_href := None;
     jsonld_html := None; itemscope_length := 0; a_href := [];
     body_text := "page" |}.

Definition html_shout : string := "<body>EXAMPLE  page</body>".
Definition html_keyword_only : string := "<body>Example EXAMPLE example</body>".

Definition html_a_bad_b : string :=
  "<body><a href='/a'>A</a><a href='http://'>x</a><a href='/b'>B</a></body>".
Definition dom_a_bad_b : Dom :=
  dom_links [Some "/a"; Some "http://"; Some "/b"] "AxB".

Definition html_fragments : string :=
  "<body><a href='#top'>top</a><a>x</a><a href=''>y</a></body>".
Definition dom_fragments : Dom :=
  dom_links [Some "#top"; None; Some ""] "topxy".

Definition seo_full : SEOData :=
  {| title := "T"; metaDescription := "D"; h1Count := 1; h2Count := 0;
     imageAltTags := [Some "A"]; canonicalLink := "https://example.com";
     robotsTxt := true; sitemap := false; structuredData := false;
     brokenLinks := 0; keywordDensity := "0.00"; readability := VNum (Num 0%Q) |}.

End Sample.

(** * Properties *)

(** ** Strings and numbers on concrete inputs *)

Example split_words : split is_space " a  b " = [""; "a"; "b"; ""].
Proof. reflexivity. Qed.

Example split_empty : split is_space "" = [""].
Proof. reflexivity. Qed.

Example toFixed2_density :
  toFixed2 (fun _ => "") (mul (div (of_nat 2) (of_nat 7)) (of_nat 100)) = "28.57".
Proof. vm_compute. reflexivity. Qed.

Example toFixed2_negative :
  toFixed2 (fun _ => "") (Num (- (1 # 1000))%Q) = "-0.00".
Proof. vm_compute. reflexivity. Qed.

Example readability_two_sentences :
  toFixed2 (fun _ => "")
    (readability_formula "This is a simple sentence. It has two sentences.")
  = "72.19".
Proof. vm_compute. reflexivity. Qed.

(** ** The on-page checklist score *)

Lemma truthy_true_iff (s : string) : truthy s = true <-> s <> "".
Proof.
  destruct s; simpl; split; intro H; congruence.
Qed.

Lemma truthy_false_iff (s : string) : truthy s = false <-> s = "".
Proof. destruct s; simpl; split; congruence. Qed.

Lemma truthy_opt_true_iff (alt : option string) :
  truthy_opt alt = true <-> Spec.alt_present alt.
Proof.
  unfold Spec.alt_present. destruct alt as [s|]; simpl.
  - rewrite truthy_true_iff. split.
    + intro H. exists s. now split.
    + intros [s' [E H]]. now inversion E; subst.
  - split; [discriminate | intros [s [E _]]; discriminate].
Qed.

Lemma forallb_truthy_opt_iff (alts : list (option string)) :
  forallb truthy_opt alts = true <-> Forall Spec.alt_present alts.
Proof.
  rewrite forallb_forall, Forall_forall.
  split; intros H x Hx; apply truthy_opt_true_iff, H, Hx.
Qed.

(** The score is 20 times the number of checks passed. *)
Lemma calculateOnPageSEOScore_sum (sd : SEOData) :
  calculateOnPageSEOScore sd
  = 20 * (Nat.b2n (truthy (title sd)) + Nat.b2n (truthy (metaDescription sd))
          + Nat.b2n (Nat.eqb (h1Count sd) 1) + Nat.b2n (truthy (canonicalLink sd))
          + Nat.b2n (forallb truthy_opt (imageAltTags sd))).
Proof.
  unfold calculateOnPageSEOScore.
  destruct (truthy (title sd)), (truthy (metaDescription sd)),
    (Nat.eqb (h1Count sd) 1), (truthy (canonicalLink sd)),
    (forallb truthy_opt (imageAltTags sd)); reflexivity.
Qed.

(** C4. For every SEO record the checklist score is 20 points for each of
    the five checks that holds: non-empty title, non-empty meta
    description, [h1Count] exactly 1, non-empty canonical link, and every
    image alt-tag present and non-empty (true of the empty list).  Hence
    the score is 100 when all five hold and 0 when none holds. *)
Theorem calculateOnPageSEOScore_checklist (sd : SEOData) :
  (exists t m h c a : bool,
      calculateOnPageSEOScore sd
      = 20 * (Nat.b2n t + Nat.b2n m + Nat.b2n h + Nat.b2n c + Nat.b2n a)
      /\ (t = true <-> title sd <> "")
      /\ (m = true <-> metaDescription sd <> "")
      /\ (h = true <-> h1Count sd = 1)
      /\ (c = true <-> canonicalLink sd <> "")
      /\ (a = true <-> Forall Spec.alt_present (imageAltTags sd)))
  /\ (imageAltTags sd = [] -> Forall Spec.alt_present (imageAltTags sd))
  /\ (title sd <> "" -> metaDescription sd <> "" -> h1Count sd = 1 ->
      canonicalLink sd <> "" -> Forall Spec.alt_present (imageAltTags sd) ->
      calculateOnPageSEOScore sd = 100)
  /\ (title sd = "" -> metaDescription sd = "" -> h1Count sd <> 1 ->
      canonicalLink sd = "" -> ~ Forall Spec.alt_present (imageAltTags sd) ->
      calculateOnPageSEOScore sd = 0).
Proof.
  split; [| split; [| split]].
  - exists (truthy (title sd)), (truthy (metaDescription sd)),
      (Nat.eqb (h1Count sd) 1), (truthy (canonicalLink sd)),
      (forallb truthy_opt (imageAltTags sd)).
    split; [apply calculateOnPageSEOScore_sum |].
    repeat split; try apply truthy_true_iff; try apply forallb_truthy_opt_iff;
      try apply Nat.eqb_eq.
  - intros ->. constructor.
  - intros Ht Hm Hh Hc Ha. rewrite calculateOnPageSEOScore_sum.
    apply truthy_true_iff in Ht, Hm, Hc. apply Nat.eqb_eq in Hh.
    apply forallb_truthy_opt_iff in Ha.
    now rewrite Ht, Hm, Hh, Hc, Ha.
  - intros Ht Hm Hh Hc Ha. rewrite calculateOnPageSEOScore_sum.
    apply truthy_false_iff in Ht, Hm, Hc. apply Nat.eqb_neq in Hh.
    assert (forallb truthy_opt (imageAltTags sd) = false) as Ha'.
    { destruct (forallb truthy_opt (imageAltTags sd)) eqn:E; [| reflexivity].
      now apply forallb_truthy_opt_iff in E. }
    now rewrite Ht, Hm, Hh, Hc, Ha'.
Qed.

Lemma calculateOnPageSEOScore_checklist_witness :
  calculateOnPageSEOScore Sample.seo_full = 100.
Proof.
  apply (proj1 (proj2 (proj2 (calculateOnPageSEOScore_checklist Sample.seo_full))));
    simpl; try discriminate; try reflexivity.
  repeat constructor. exists "A". split; [reflexivity | discriminate].
Defined.

(** ** The overall score *)

(** With the [seo] category present, the overall score is
    round((x * 100 + onPageScore) / 2), a [null] score counting as 0. *)
Lemma generateSEOScore_present (lh : LighthouseResults) (c : Category)
  (sd : SEOData) :
  seo (categories lh) = Some c ->
  generateSEOScore lh sd
  = Return (Num (inject_Z (round_half_up
      ((match score c with Some x => x | None => 0%Q end * inject_Z 100
        + inject_Z (Z.of_nat (calculateOnPageSEOScore sd))) / inject_Z 2)%Q))).
Proof.
  intro H. unfold generateSEOScore. rewrite H.
  destruct (score c); reflexivity.
Qed.

Lemma generateSEOScore_full_marks (lh : LighthouseResults) (sd : SEOData) :
  seo (categories lh) = Some {| score := Some 1%Q |} ->
  calculateOnPageSEOScore sd = 100 ->
  generateSEOScore lh sd = Return (Num (inject_Z 100)).
Proof.
  intros H Hs. rewrite (generateSEOScore_present lh _ sd H), Hs. reflexivity.
Qed.

(** C3, at the failing input. When the browser audit returned no [seo]
    category, [generateSEOScore] throws a [TypeError] for every SEO record:
    the absent score does not contribute 0 and no overall score is
    produced. *)
Theorem generateSEOScore_absent_seo_throws
  (p a b : option Category) (sd : SEOData) :
  generateSEOScore
    {| categories := {| performance := p; seo := None;
                        accessibility := a; best_practices := b |} |} sd
  = Throw (TypeError "Cannot read properties of undefined (reading 'score')").
Proof. reflexivity. Qed.

(** The TypeScript variant gives the absent score the contribution 0. *)
Lemma TS_generateSEOScore_total (lh : LighthouseResults) (sd : SEOData) :
  TS.generateSEOScore lh sd
  = Num (inject_Z (round_half_up
      ((match seo (categories lh) with
        | Some c => match score c with Some x => x | None => 0%Q end
        | None => 0%Q
        end * inject_Z 100
        + inject_Z (Z.of_nat (calculateOnPageSEOScore sd))) / inject_Z 2)%Q)).
Proof.
  unfold TS.generateSEOScore.
  destruct (seo (categories lh)) as [c|]; [destruct (score c) |]; reflexivity.
Qed.

Lemma generateSEOScore_agrees_with_TS (lh : LighthouseResults) (c : Category)
  (sd : SEOData) :
  seo (categories lh) = Some c ->
  generateSEOScore lh sd = Return (TS.generateSEOScore lh sd).
Proof.
  intro H. rewrite (generateSEOScore_present lh c sd H), TS_generateSEOScore_total.
  now rewrite H.
Qed.

(** ** Keyword density *)

Lemma filter_length_Permutation {A} (f : A -> bool) (l1 l2 : list A) :
  Permutation l1 l2 -> List.length (filter f l1) = List.length (filter f l2).
Proof.
  induction 1 as [| x l l' _ IH | x y l | l l' l'' _ IH1 _ IH2]; simpl.
  - reflexivity.
  - destruct (f x); simpl; congruence.
  - destruct (f x), (f y); reflexivity.
  - congruence.
Qed.

(** C9. Two documents whose body texts have the same tokens up to order
    get the same keyword density. *)
Theorem calculateKeywordDensity_order_independent
  (env : Env) (html1 html2 : string) :
  Permutation (tokens (body_text (cheerio_load env html1)))
              (tokens (body_text (cheerio_load env html2))) ->
  calculateKeywordDensity env html1 = calculateKeywordDensity env html2.
Proof.
  intro H. unfold calculateKeywordDensity.
  rewrite (filter_length_Permutation _ _ _ H), (Permutation_length H).
  reflexivity.
Qed.

Lemma calculateKeywordDensity_order_independent_witness :
  calculateKeywordDensity Sample.offline Sample.html_words1
  = calculateKeywordDensity Sample.offline Sample.html_words2.
Proof.
  apply calculateKeywordDensity_order_independent.
  apply perm_swap.
Defined.

Example calculateKeywordDensity_half :
  calculateKeywordDensity Sample.offline Sample.html_words1 = "50.00".
Proof. vm_compute. reflexivity. Qed.

(** C8, as the code has it. A body text without tokens gives the string
    [NaN]: the quotient 0/0 is formatted as it is, and nothing is thrown. *)
Theorem calculateKeywordDensity_no_tokens (env : Env) (html : string) :
  tokens (body_text (cheerio_load env html)) = [] ->
  calculateKeywordDensity env html = "NaN".
Proof.
  intro H. unfold calculateKeywordDensity. rewrite H. reflexivity.
Qed.

Lemma calculateKeywordDensity_no_tokens_witness :
  calculateKeywordDensity Sample.offline Sample.html_blank = "NaN".
Proof.
  apply calculateKeywordDensity_no_tokens. reflexivity.
Defined.

(** C8 fails as stated: on a body of white space the reported density is
    the string [NaN]. *)
Lemma calculateKeywordDensity_blank_is_NaN :
  tokens (body_text (cheerio_load Sample.offline Sample.html_blank)) = []
  /\ ~ (calculateKeywordDensity Sample.offline Sample.html_blank <> "NaN").
Proof.
  split; [reflexivity |]. intro H. apply H. reflexivity.
Qed.

(** ** Broken links *)

Lemma n_gets_app (tr1 tr2 : trace) :
  n_gets (tr1 ++ tr2) = n_gets tr1 + n_gets tr2.
Proof.
  induction tr1 as [| e tr1 IH]; simpl; [reflexivity |].
  destruct e; simpl; now rewrite IH.
Qed.

Lemma n_gets_snoc (tr : trace) (u : string) :
  n_gets (tr ++ [HttpGet u]) = S (n_gets tr).
Proof. rewrite n_gets_app. simpl. lia. Qed.

Lemma bind_return {A B} (m : M A) (k : A -> M B) (tr tr' : trace) (a : A) :
  m tr = (Return a, tr') -> bind m k tr = k a tr'.
Proof. intro H. unfold bind. now rewrite H. Qed.

Lemma bind_throw {A B} (m : M A) (k : A -> M B) (tr tr' : trace) (e : error) :
  m tr = (Throw e, tr') -> bind m k tr = (Throw e, tr').
Proof. intro H. unfold bind. now rewrite H. Qed.

(** One turn of the loop body after the URL is resolved. *)
Lemma probe_step (env : Env) (u : string) (n : nat) (tr : trace) :
  try_catch
    (response <- axios_get_await env u ;;
     ret (if Z.eqb (status response) 200 then n else S n))
    (fun _ => ret (S n)) tr
  = (Return (n + (if is_broken (axios_get env (n_gets tr) u) then 1 else 0)),
     tr ++ [HttpGet u]).
Proof.
  unfold try_catch, bind, axios_get_await, ret, is_broken.
  destruct (axios_get env (n_gets tr) u) as [response | message]; simpl.
  - destruct (Z.eqb (status response) 200); simpl; do 2 f_equal; lia.
  - do 2 f_equal. lia.
Qed.

Lemma probe_links_resolved (env : Env) (baseUrl : string)
  (links urls : list string) :
  Forall2 (fun link u => URL_href env link baseUrl = Some u) links urls ->
  forall (n : nat) (tr : trace),
    probe_links env baseUrl links n tr
    = (Return (n + broken_from env (n_gets tr) urls), tr ++ map HttpGet urls).
Proof.
  induction 1 as [| link u links urls Hu _ IH]; intros n tr; simpl.
  - unfold ret. now rewrite Nat.add_0_r, app_nil_r.
  - unfold new_URL_href. rewrite Hu.
    erewrite bind_return by reflexivity.
    erewrite bind_return by apply probe_step.
    rewrite IH, n_gets_snoc, <- app_assoc. simpl.
    do 2 f_equal. lia.
Qed.

Lemma probe_links_unresolved (env : Env) (baseUrl : string)
  (links : list string) :
  (exists link, In link links /\ URL_href env link baseUrl = None) ->
  forall (n : nat) (tr : trace),
  exists tr', probe_links env baseUrl links n tr
              = (Throw (TypeError "Invalid URL"), tr').
Proof.
  induction links as [| l links IH]; intros [link [Hin Hnone]] n tr.
  - destruct Hin.
  - simpl. unfold new_URL_href.
    destruct (URL_href env l baseUrl) as [u|] eqn:Hu.
    + erewrite bind_return by reflexivity.
      erewrite bind_return by apply probe_step.
      apply IH. destruct Hin as [-> | Hin]; [congruence |].
      exists link. now split.
    + exists tr. reflexivity.
Qed.

(** The links probed are the hrefs that are present, non-empty and without
    a leading [#]. *)
Lemma extract_links_In (hrefs : list (option string)) (link : string) :
  In link (extract_links hrefs)
  <-> In (Some link) hrefs /\ link <> "" /\ startsWith "#" link = false.
Proof.
  unfold extract_links, keep_link, cheerio_map_get.
  rewrite filter_In, in_flat_map, andb_true_iff, negb_true_iff, truthy_true_iff.
  split.
  - intros [[o [Ho Hl]] [Hne Hs]]. destruct o as [s|]; [| destruct Hl].
    destruct Hl as [-> | []]. auto.
  - intros [Hin [Hne Hs]]. split; [| auto].
    exists (Some link). split; [assumption | now left].
Qed.

(** C7, as the code has it. When every link kept resolves against the base
    URL, [findBrokenLinks] sends one GET per kept link, in document order
    and once per occurrence, and returns the number of those requests that
    were rejected or answered with a status other than 200.  The links
    kept are the hrefs that are present, non-empty and without a leading
    [#]. *)
Theorem findBrokenLinks_counts_occurrences
  (env : Env) (html baseUrl : string) (urls : list string) (tr : trace) :
  Forall2 (fun link u => URL_href env link baseUrl = Some u)
          (extract_links (a_href (cheerio_load env html))) urls ->
  findBrokenLinks env html baseUrl tr
  = (Return (broken_from env (n_gets tr) urls), tr ++ map HttpGet urls)
  /\ List.length urls
     = List.length (extract_links (a_href (cheerio_load env html)))
  /\ (forall link, In link (extract_links (a_href (cheerio_load env html)))
        <-> In (Some link) (a_href (cheerio_load env html))
            /\ link <> "" /\ startsWith "#" link = false).
Proof.
  intro H. split; [| split].
  - unfold findBrokenLinks. now rewrite (probe_links_resolved _ _ _ _ H).
  - symmetry. eapply Forall2_length, H.
  - intro link. apply extract_links_In.
Qed.

(** The example of the specification: A answers 200, B answers 404, C
    fails; the count is 2. *)
Lemma findBrokenLinks_counts_occurrences_witness :
  findBrokenLinks (Sample.online "") Sample.html_abc Sample.site []
  = (Return 2,
     [HttpGet "https://example.com/a"; HttpGet "https://example.com/b";
      HttpGet "https://example.com/c"]).
Proof.
  apply (findBrokenLinks_counts_occurrences (Sample.online "") Sample.html_abc
           Sample.site
           ["https://example.com/a"; "https://example.com/b";
            "https://example.com/c"] []).
  repeat constructor.
Defined.

(** A link that appears twice is probed and counted twice. *)
Example findBrokenLinks_repeated_link :
  findBrokenLinks (Sample.online "") Sample.html_bb Sample.site []
  = (Return 2,
     [HttpGet "https://example.com/b"; HttpGet "https://example.com/b"]).
Proof. reflexivity. Qed.

(** C7 fails as stated: an anchor with an empty href has no leading [#],
    resolves to the base URL and would be probed; the code leaves it out,
    so with the site down the code counts 0 where the wording counts 1. *)
Lemma findBrokenLinks_empty_href_not_counted :
  fst (findBrokenLinks Sample.offline Sample.html_empty_href Sample.site [])
  <> Return (Spec.brokenLinkCount Sample.offline Sample.html_empty_href
               Sample.site 0).
Proof. vm_compute. discriminate. Qed.

Lemma extract_links_skip (before after : list (option string))
  (h : option string) :
  h = None \/ h = Some "" ->
  extract_links (before ++ h :: after) = extract_links (before ++ after).
Proof.
  intro H. unfold extract_links, cheerio_map_get.
  rewrite !flat_map_app, !filter_app. f_equal.
  destruct H as [-> | ->]; reflexivity.
Qed.

(** C10. An anchor whose href is missing or empty takes no part in the
    broken-link check: the document without that anchor gives the same
    count and the same requests. *)
Theorem findBrokenLinks_skips_missing_and_empty
  (env : Env) (html html' baseUrl : string)
  (before after : list (option string)) (h : option string) (tr : trace) :
  a_href (cheerio_load env html) = before ++ h :: after ->
  a_href (cheerio_load env html') = before ++ after ->
  h = None \/ h = Some "" ->
  findBrokenLinks env html baseUrl tr = findBrokenLinks env html' baseUrl tr.
Proof.
  intros H H' Hh. unfold findBrokenLinks.
  now rewrite H, H', (extract_links_skip _ _ _ Hh).
Qed.

Lemma findBrokenLinks_skips_missing_and_empty_witness :
  findBrokenLinks (Sample.online "") Sample.html_mixed Sample.site []
  = findBrokenLinks (Sample.online "") Sample.html_b Sample.site [].
Proof.
  apply (findBrokenLinks_skips_missing_and_empty (Sample.online "")
           Sample.html_mixed Sample.html_b Sample.site [] [Some "/b"] (Some "") []).
  - reflexivity.
  - reflexivity.
  - right. reflexivity.
Defined.

(** A document whose anchors all lack an href, or have an empty one, sends
    no request and counts 0. *)
Lemma findBrokenLinks_only_missing_or_empty
  (env : Env) (html baseUrl : string) (tr : trace) :
  Forall (fun h => h = None \/ h = Some "") (a_href (cheerio_load env html)) ->
  findBrokenLinks env html baseUrl tr = (Return 0, tr).
Proof.
  intro H. unfold findBrokenLinks.
  assert (extract_links (a_href (cheerio_load env html)) = []) as ->.
  { induction H as [| h hs Hh _ IH]; [reflexivity |].
    change (h :: hs) with ([] ++ h :: hs).
    now rewrite (extract_links_skip [] hs h Hh). }
  reflexivity.
Qed.

(** ** The on-page analysis as a unit *)

Lemma probe_200_run (env : Env) (u : string) (tr : trace) :
  probe_200 env u tr
  = (Return (is_200 (axios_get env (n_gets tr) u)), tr ++ [HttpGet u]).
Proof.
  unfold probe_200, try_catch, bind, axios_get_await, ret, is_200.
  now destruct (axios_get env (n_gets tr) u).
Qed.

(** C5, as the code has it. The failures of the robots, sitemap and link
    probes are absorbed: when every link kept resolves against the base
    URL and the readability step has an article to read, the analysis
    returns a record whatever the network answers, with [robotsTxt] and
    [sitemap] false and the link counted as broken where the probe failed.
    A link that does not resolve is not absorbed: the analysis throws the
    [TypeError] of the URL constructor. *)
Theorem analyzeOnPageSEO_absorbs_probe_failures
  (env : Env) (html baseUrl : string) (tr : trace) :
  (forall urls,
      Forall2 (fun link u => URL_href env link baseUrl = Some u)
              (extract_links (a_href (cheerio_load env html))) urls ->
      isProbablyReaderable env html = false
      \/ Readability_parse env html <> None ->
      exists sd,
        analyzeOnPageSEO env html baseUrl tr
        = (Return sd,
           tr ++ HttpGet (baseUrl ++ "/robots.txt")
              :: HttpGet (baseUrl ++ "/sitemap.xml") :: map HttpGet urls)
        /\ robotsTxt sd
           = is_200 (axios_get env (n_gets tr) (baseUrl ++ "/robots.txt"))
        /\ sitemap sd
           = is_200 (axios_get env (S (n_gets tr)) (baseUrl ++ "/sitemap.xml"))
        /\ brokenLinks sd = broken_from env (S (S (n_gets tr))) urls)
  /\ ((exists link,
          In link (extract_links (a_href (cheerio_load env html)))
          /\ URL_href env link baseUrl = None) ->
      exists tr',
        analyzeOnPageSEO env html baseUrl tr
        = (Throw (TypeError "Invalid URL"), tr')).
Proof.
  split.
  - intros urls Hres Hread. unfold analyzeOnPageSEO, checkRobotsTxt, checkSitemap.
    erewrite bind_return by apply probe_200_run.
    erewrite bind_return by apply probe_200_run.
    unfold findBrokenLinks.
    erewrite bind_return by apply (probe_links_resolved _ _ _ _ Hres).
    rewrite !n_gets_snoc, <- !app_assoc. simpl.
    assert (exists v, calculateReadability env html = Return v) as [v Hv].
    { unfold calculateReadability.
      destruct Hread as [-> | Hp]; simpl; [eauto |].
      destruct (isProbablyReaderable env html); simpl; [| eauto].
      destruct (Readability_parse env html); [eauto | congruence]. }
    rewrite Hv. unfold lift, bind, ret. simpl.
    eexists. repeat split.
  - intro Hbad. unfold analyzeOnPageSEO, checkRobotsTxt, checkSitemap.
    erewrite bind_return by apply probe_200_run.
    erewrite bind_return by apply probe_200_run.
    unfold findBrokenLinks.
    destruct (probe_links_unresolved env baseUrl _ Hbad 0
                ((tr ++ [HttpGet (baseUrl ++ "/robots.txt")])
                   ++ [HttpGet (baseUrl ++ "/sitemap.xml")])) as [tr' Htr'].
    exists tr'. now erewrite bind_throw by apply Htr'.
Qed.

Lemma analyzeOnPageSEO_absorbs_probe_failures_witness :
  exists sd,
    analyzeOnPageSEO (Sample.online "") Sample.html_abc Sample.site []
    = (Return sd,
       [HttpGet "https://example.com/robots.txt";
        HttpGet "https://example.com/sitemap.xml";
        HttpGet "https://example.com/a"; HttpGet "https://example.com/b";
        HttpGet "https://example.com/c"])
    /\ robotsTxt sd = true /\ sitemap sd = false /\ brokenLinks sd = 2.
Proof.
  apply (proj1 (analyzeOnPageSEO_absorbs_probe_failures (Sample.online "")
                  Sample.html_abc Sample.site [])
           ["https://example.com/a"; "https://example.com/b";
            "https://example.com/c"]).
  - repeat constructor.
  - left. reflexivity.
Defined.

(** C5 fails as stated: a document with the link [http://], which has no
    host, makes the whole analysis throw. *)
Lemma analyzeOnPageSEO_bad_link_throws :
  ~ (exists sd,
        fst (analyzeOnPageSEO (Sample.online "") Sample.html_bad_url
               Sample.site [])
        = Return sd).
Proof. intros [sd H]. vm_compute in H. discriminate. Qed.

(** ** Readability *)

(** C6, at the failing input. For a document that is not judged
    readerable, [calculateReadability] returns the number 0, neither an
    empty string nor an absent value. *)
Theorem calculateReadability_not_readerable (env : Env) (html : string) :
  isProbablyReaderable env html = false ->
  calculateReadability env html = Return (VNum (Num 0%Q)).
Proof. intro H. unfold calculateReadability. now rewrite H. Qed.

Lemma calculateReadability_not_readerable_witness :
  calculateReadability Sample.offline "<html></html>" = Return (VNum (Num 0%Q)).
Proof.
  apply calculateReadability_not_readerable. reflexivity.
Defined.

(** A document judged readerable whose article cannot be extracted makes
    [calculateReadability] throw: the test [if (!article)] looks at the
    [Readability] object and not at the result of [parse]. *)
Lemma calculateReadability_null_article_throws (env : Env) (html : string) :
  isProbablyReaderable env html = true ->
  Readability_parse env html = None ->
  calculateReadability env html
  = Throw (TypeError "Cannot read properties of null (reading 'textContent')").
Proof. intros H1 H2. unfold calculateReadability. now rewrite H1, H2. Qed.

(** The TypeScript variant reports the empty string there. *)
Lemma TS_calculateReadability_null_article (env : Env) (html : string) :
  Readability_parse env html = None ->
  TS.calculateReadability env html = "".
Proof. intro H. unfold TS.calculateReadability. now rewrite H. Qed.

(** With an article extracted, both variants report the same string. *)
Lemma calculateReadability_agrees_with_TS (env : Env) (html : string)
  (article : Article) :
  isProbablyReaderable env html = true ->
  Readability_parse env html = Some article ->
  calculateReadability env html = Return (VStr (TS.calculateReadability env html)).
Proof.
  intros H1 H2. unfold calculateReadability, TS.calculateReadability.
  now rewrite H1, H2.
Qed.

(** ** The collaborator calls as runs *)

Lemma fetchHTML_run (env : Env) (url : string) (tr : trace) :
  fetchHTML env url tr
  = (Return (match axios_get env (n_gets tr) url with
             | Resolved response => Some (data response)
             | Rejected _ => None
             end),
     tr ++ [HttpGet url]).
Proof.
  unfold fetchHTML, try_catch, bind, axios_get_await, ret.
  now destruct (axios_get env (n_gets tr) url).
Qed.

Lemma runLighthouseAudit_run (env : Env) (url : string) (tr : trace) :
  runLighthouseAudit env url tr
  = match chrome_launch env with
    | Throw _ => (Return None, tr ++ [ChromeLaunch])
    | Return _ =>
        (match chrome_kill env with
         | Throw e => Throw e
         | Return _ =>
             Return (match lighthouse env url with
                     | Return lhr => Some lhr
                     | Throw _ => None
                     end)
         end,
         tr ++ [ChromeLaunch; LighthouseRun url; ChromeKill])
    end.
Proof.
  unfold runLighthouseAudit.
  destruct (chrome_launch env) as [[] | e]; [| reflexivity].
  cbv [try_finally try_catch bind perform lift ret].
  destruct (lighthouse env url), (chrome_kill env) as [[] | e'];
    now rewrite <- !app_assoc.
Qed.

(** ** The orchestrator and the handlers *)

Example run_request_missing_site (env : Env) :
  run_request env None = [Status400Json "Site URL is required."]
  /\ run_request env (Some "") = [Status400Json "Site URL is required."].
Proof. split; reflexivity. Qed.

Lemma n_gets_progress (tr : trace) (label : string) :
  n_gets (tr ++ [ResWrite (Progress label)]) = n_gets tr.
Proof. rewrite n_gets_app. simpl. lia. Qed.

(** The run of [auditSiteWithProgress] with the callback of the handlers.
    After the browser audit the read of [lighthouseResults] (line 236)
    throws. *)
Lemma auditSiteWithProgress_run (env : Env) (url : string) (tr : trace) :
  auditSiteWithProgress env url emitProgress tr
  = if fetch_failed (axios_get env (n_gets tr) url) then
      (Return None,
       tr ++ [ResWrite (Progress "Fetching HTML..."); HttpGet url;
              ResWrite (Progress "Failed to fetch HTML.")])
    else
      match runLighthouseAudit env url
              (tr ++ [ResWrite (Progress "Fetching HTML..."); HttpGet url;
                      ResWrite (Progress "Running Lighthouse audit...")]) with
      | (Return _, tr1) =>
          (Throw (ReferenceError "lighthouseResults is not defined"), tr1)
      | (Throw e, tr1) => (Throw e, tr1)
      end.
Proof.
  unfold auditSiteWithProgress.
  erewrite bind_return by reflexivity.
  erewrite bind_return by apply fetchHTML_run.
  rewrite n_gets_progress. unfold fetch_failed.
  destruct (axios_get env (n_gets tr) url) as [response | message].
  - destruct (data response) as [| c html]; cbn [truthy_opt truthy negb or_empty].
    + erewrite bind_return by reflexivity.
      unfold ret. now rewrite <- !app_assoc.
    + erewrite bind_return by reflexivity.
      rewrite <- !app_assoc. cbn [app]. unfold bind at 1.
      destruct (runLighthouseAudit env url _) as [[r | e] tr1]; reflexivity.
  - cbn [truthy_opt negb]. erewrite bind_return by reflexivity.
    unfold ret. now rewrite <- !app_assoc.
Qed.

(** The run of the handler text in a module where [WebsiteAudit] is bound
    to the class. *)
Lemma audit_handler_run (env : Env)
  (scope : list (string * WebsiteAuditClass)) (site : string) (tr : trace) :
  site <> "" ->
  read_var scope "WebsiteAudit" = Return (WebsiteAudit_class env) ->
  audit_handler scope (Some site) tr
  = (Return tt,
     snd (auditSiteWithProgress env site emitProgress (tr ++ sse_headers))
       ++ [ResWrite
             (terminal_event
                (fst (auditSiteWithProgress env site emitProgress
                        (tr ++ sse_headers))));
           ResEnd]).
Proof.
  intros Hsite Hscope. destruct site as [| c site]; [congruence |].
  unfold audit_handler. cbn [truthy_opt truthy negb or_empty].
  do 3 (erewrite bind_return by reflexivity).
  rewrite Hscope. erewrite bind_return by reflexivity.
  rewrite <- !app_assoc. cbn [app].
  change (fun message : string => perform (ResWrite (Progress message)))
    with emitProgress.
  change (auditSiteWithProgress_of (WebsiteAudit_class env))
    with (auditSiteWithProgress env).
  unfold bind, try_catch, perform, sse_headers.
  destruct (auditSiteWithProgress env (String c site) emitProgress _)
    as [[[r |] | e] tr1]; cbn [fst snd terminal_event];
    now rewrite <- app_assoc.
Qed.

(** C2, as the code has it. When the request for the page is rejected,
    [auditSiteWithProgress] emits two progress labels, [Fetching HTML...]
    before the request and [Failed to fetch HTML.] after it, does nothing
    else and returns [null]; the handler, where the class [WebsiteAudit]
    is in scope, then writes the single terminal event
    [{error: 'Audit failed.'}], no [results] event, and ends the
    stream. *)
Theorem fetch_failure_stream (env : Env) (site message : string) :
  site <> "" ->
  axios_get env 0 site = Rejected message ->
  auditSiteWithProgress env site emitProgress []
  = (Return None,
     [ ResWrite (Progress "Fetching HTML..."); HttpGet site;
       ResWrite (Progress "Failed to fetch HTML.") ])
  /\ (forall scope,
         read_var scope "WebsiteAudit" = Return (WebsiteAudit_class env) ->
         audit_handler scope (Some site) []
         = (Return tt,
            sse_headers
              ++ [ ResWrite (Progress "Fetching HTML..."); HttpGet site;
                   ResWrite (Progress "Failed to fetch HTML.");
                   ResWrite (Error "Audit failed."); ResEnd ])).
Proof.
  intros Hsite Hget. split.
  - rewrite auditSiteWithProgress_run. cbn [n_gets]. now rewrite Hget.
  - intros scope Hscope.
    rewrite (audit_handler_run env scope site [] Hsite Hscope).
    rewrite auditSiteWithProgress_run. cbn [app sse_headers n_gets].
    now rewrite Hget.
Qed.

Lemma fetch_failure_stream_witness :
  auditSiteWithProgress Sample.offline Sample.site emitProgress []
  = (Return None,
     [ ResWrite (Progress "Fetching HTML..."); HttpGet Sample.site;
       ResWrite (Progress "Failed to fetch HTML.") ])
  /\ inline_audit_handler Sample.offline (Some Sample.site) []
     = (Return tt,
        sse_headers
          ++ [ ResWrite (Progress "Fetching HTML..."); HttpGet Sample.site;
               ResWrite (Progress "Failed to fetch HTML.");
               ResWrite (Error "Audit failed."); ResEnd ]).
Proof.
  destruct (fetch_failure_stream Sample.offline Sample.site "Network Error")
    as [Horch Hhandler].
  - discriminate.
  - reflexivity.
  - split; [exact Horch |]. apply Hhandler. reflexivity.
Defined.

(** C2 fails as stated: with the site down, [auditSiteWithProgress] emits
    two progress events, not one. *)
Lemma fetch_failure_two_progress_events :
  List.length
    (filter is_progress
       (writes (snd (auditSiteWithProgress Sample.offline Sample.site
                       emitProgress []))))
  <> 1.
Proof. vm_compute. discriminate. Qed.




Example inline_run_request_site_up :
  inline_run_request (Sample.online Sample.html_full) (Some Sample.site)
  = sse_headers
      ++ [ ResWrite (Progress "Fetching HTML..."); HttpGet Sample.site;
           ResWrite (Progress "Running Lighthouse audit...");
           ChromeLaunch; LighthouseRun Sample.site; ChromeKill;
           ResWrite (Error "lighthouseResults is not defined"); ResEnd ].
Proof. reflexivity. Qed.

(** After a successful fetch, the read of the unbound identifier
    [lighthouseResults] throws, so [auditSiteWithProgress] returns no
    result on any run. *)
Lemma auditSiteWithProgress_no_result (env : Env) (site : string)
  (tr : trace) (r : AuditResult) :
  fst (auditSiteWithProgress env site emitProgress tr) <> Return (Some r).
Proof.
  rewrite auditSiteWithProgress_run.
  destruct (fetch_failed (axios_get env (n_gets tr) site)); [discriminate |].
  destruct (runLighthouseAudit env site _) as [[res | e] tr1]; discriminate.
Qed.

(** ** The shape of [toFixed(2)] *)

Lemma digit_is_digit (d : Z) :
  (0 <= d < 10)%Z -> Spec.is_digit (digit d) = true.
Proof.
  intro H.
  assert (d = 0 \/ d = 1 \/ d = 2 \/ d = 3 \/ d = 4 \/ d = 5 \/ d = 6
          \/ d = 7 \/ d = 8 \/ d = 9)%Z as Hd by lia.
  repeat (destruct Hd as [-> | Hd]; [reflexivity |]). now subst.
Qed.

Lemma string_of_uint_all_digits (u : Decimal.uint) :
  Spec.all_digits (NilEmpty.string_of_uint u) = true.
Proof.
  unfold Spec.all_digits. induction u; simpl; auto.
Qed.

Lemma digits_all_digits (n : Z) : Spec.all_digits (digits n) = true.
Proof.
  unfold digits, NilZero.string_of_uint.
  destruct (N.to_uint (Z.to_N n)) eqn:E; try reflexivity;
    rewrite <- E; apply string_of_uint_all_digits.
Qed.

Lemma digits_nonempty (n : Z) : digits n <> "".
Proof.
  unfold digits, NilZero.string_of_uint.
  destruct (N.to_uint (Z.to_N n)); simpl; discriminate.
Qed.

Lemma toFixed2_decimal2 (toString : Q -> string) (q : Q) :
  Qle_bool (inject_Z (10 ^ 21)) (Qabs q) = false ->
  Spec.decimal2 (toFixed2 toString (Num q)).
Proof.
  intro H. unfold toFixed2. rewrite H.
  set (n := round_half_up (Qabs q * 100)).
  exists (if Qneg_b q then "-" else ""), (digits (n / 100)),
    (String (digit (n mod 100 / 10)) (String (digit (n mod 10)) "")).
  split; [reflexivity |].
  split; [destruct (Qneg_b q); auto |].
  split; [apply digits_nonempty |].
  split; [apply digits_all_digits |].
  split; [| reflexivity].
  unfold Spec.all_digits. simpl.
  rewrite !digit_is_digit; [reflexivity | |].
  - apply Z.mod_pos_bound. lia.
  - pose proof (Z.mod_pos_bound n 100 ltac:(lia)) as Hm.
    split; [apply Z.div_pos; lia | apply Z.div_lt_upper_bound; lia].
Qed.

(** ** Quotients of counts *)

Lemma div_of_nat (a b : nat) :
  b <> 0 ->
  div (of_nat a) (of_nat b)
  = Num (inject_Z (Z.of_nat a) / inject_Z (Z.of_nat b))%Q.
Proof.
  intro Hb. destruct b as [| b]; [congruence |]. reflexivity.
Qed.

Lemma Qdiv_nat_bounds (a b : nat) :
  b <> 0 ->
  (0 <= inject_Z (Z.of_nat a) / inject_Z (Z.of_nat b)
   /\ inject_Z (Z.of_nat a) / inject_Z (Z.of_nat b) <= inject_Z (Z.of_nat a))%Q.
Proof.
  intro Hb.
  assert (0 < inject_Z (Z.of_nat b))%Q as Hpos.
  { change 0%Q with (inject_Z 0). rewrite <- Zlt_Qlt. lia. }
  split.
  - apply Qle_shift_div_l; [assumption |].
    rewrite Qmult_0_l. change 0%Q with (inject_Z 0). rewrite <- Zle_Qle. lia.
  - apply Qle_shift_div_r; [assumption |].
    rewrite <- inject_Z_mult, <- Zle_Qle. nia.
Qed.

Lemma below_toFixed_threshold (q : Q) :
  (- (100000000000000000000 # 1) <= q <= 100000000000000000000 # 1)%Q ->
  Qle_bool (inject_Z (10 ^ 21)) (Qabs q) = false.
Proof.
  intro H. apply Qabs_Qle_condition in H.
  destruct (Qle_bool (inject_Z (10 ^ 21)) (Qabs q)) eqn:E; [| reflexivity].
  apply Qle_bool_iff in E. exfalso.
  pose proof (Qle_trans _ _ _ E H) as Habs.
  vm_compute in Habs. now apply Habs.
Qed.

(** X29. For an ASCII body text with at least one token, the density
    reported is a decimal string with two fractional digits, never [NaN]
    or another word. *)
Lemma calculateKeywordDensity_decimal2 (env : Env) (html : string) :
  is_ascii_text (body_text (cheerio_load env html)) = true ->
  tokens (body_text (cheerio_load env html)) <> [] ->
  Spec.decimal2 (calculateKeywordDensity env html).
Proof.
  intros _ H. unfold calculateKeywordDensity.
  set (words := tokens (body_text (cheerio_load env html))) in *.
  set (k := List.length (filter _ words)).
  assert (List.length words <> 0) as Hlen by (destruct words; simpl; congruence).
  rewrite (div_of_nat _ _ Hlen). simpl mul.
  apply toFixed2_decimal2, below_toFixed_threshold.
  destruct (Qdiv_nat_bounds k (List.length words) Hlen) as [H0 H1].
  assert (inject_Z (Z.of_nat k) <= inject_Z (Z.of_nat (List.length words)))%Q as Hk.
  { rewrite <- Zle_Qle. apply inj_le, filter_length_le. }
  assert (inject_Z (Z.of_nat k) / inject_Z (Z.of_nat (List.length words)) <= 1)%Q as H2.
  { apply Qle_shift_div_r; [| now rewrite Qmult_1_l].
    change 0%Q with (inject_Z 0). rewrite <- Zlt_Qlt. lia. }
  set (r := (inject_Z (Z.of_nat k) / inject_Z (Z.of_nat (List.length words)))%Q) in *.
  clearbody r. clear H1 Hk. change (inject_Z 100) with (100 # 1)%Q.
  split; lra.
Qed.

Lemma calculateKeywordDensity_decimal2_witness :
  Spec.decimal2 (calculateKeywordDensity Sample.offline Sample.html_words1).
Proof.
  apply calculateKeywordDensity_decimal2.
  - reflexivity.
  - discriminate.
Defined.

(** ** The readability score of an extracted text *)

Lemma split_runs_length (sep : ascii -> bool) (s : string) (in_run : bool) :
  1 <= List.length (split_runs sep in_run s) <= S (String.length s).
Proof.
  revert in_run. induction s as [| c s IH]; intro in_run; simpl; [lia |].
  destruct (sep c).
  - destruct in_run; simpl; specialize (IH true); lia.
  - specialize (IH false).
    destruct (split_runs sep false s); simpl in *; lia.
Qed.

Lemma chars_length (s : string) : List.length (chars s) = String.length s.
Proof. induction s; simpl; congruence. Qed.

Lemma readability_formula_decimal2 (toString : Q -> string) (text : string) :
  (Z.of_nat (String.length text) <= max_string_length)%Z ->
  Spec.decimal2 (toFixed2 toString (readability_formula text)).
Proof.
  intro Hlen. unfold readability_formula.
  pose proof (split_runs_length is_space text false) as Hw.
  pose proof (split_runs_length is_sentence_end text false) as Hs.
  pose proof (filter_length_le is_vowel (chars text)) as Hy.
  rewrite chars_length in Hy. fold (split is_space text) in Hw.
  fold (split is_sentence_end text) in Hs.
  set (w := List.length (split is_space text)) in *.
  set (s := List.length (split is_sentence_end text)) in *.
  set (y := List.length (filter is_vowel (chars text))) in *.
  rewrite !div_of_nat by lia. cbn [sub add opp mul].
  apply toFixed2_decimal2, below_toFixed_threshold.
  destruct (Qdiv_nat_bounds w s ltac:(lia)) as [Hr1 Hr1'].
  destruct (Qdiv_nat_bounds y w ltac:(lia)) as [Hr2 Hr2'].
  assert (inject_Z (Z.of_nat w) <= 9007199254740992 # 1)%Q as HW.
  { change (9007199254740992 # 1)%Q with (inject_Z 9007199254740992).
    rewrite <- Zle_Qle. unfold max_string_length in Hlen. lia. }
  assert (inject_Z (Z.of_nat y) <= 9007199254740992 # 1)%Q as HY.
  { change (9007199254740992 # 1)%Q with (inject_Z 9007199254740992).
    rewrite <- Zle_Qle. unfold max_string_length in Hlen. lia. }
  set (r1 := (inject_Z (Z.of_nat w) / inject_Z (Z.of_nat s))%Q) in *.
  set (r2 := (inject_Z (Z.of_nat y) / inject_Z (Z.of_nat w))%Q) in *.
  set (W := inject_Z (Z.of_nat w)) in *. set (Y := inject_Z (Z.of_nat y)) in *.
  clearbody r1 r2 W Y.
  split; lra.
Qed.

(** X30. For a document judged readerable from which an article is
    extracted (its text within the maximal string length),
    [calculateReadability] returns a decimal string with two fractional
    digits. *)
Lemma calculateReadability_decimal2 (env : Env) (html : string)
  (article : Article) :
  isProbablyReaderable env html = true ->
  Readability_parse env html = Some article ->
  (Z.of_nat (String.length (textContent article)) <= max_string_length)%Z ->
  exists s, calculateReadability env html = Return (VStr s) /\ Spec.decimal2 s.
Proof.
  intros H1 H2 Hlen. unfold calculateReadability. rewrite H1, H2. simpl.
  eexists. split; [reflexivity |].
  now apply readability_formula_decimal2.
Qed.

Lemma calculateReadability_decimal2_witness :
  exists s,
    calculateReadability
      (Sample.readerable Sample.html_full "One short text. It reads well.")
      Sample.html_full
    = Return (VStr s)
    /\ Spec.decimal2 s.
Proof.
  apply (calculateReadability_decimal2
           (Sample.readerable Sample.html_full "One short text. It reads well.")
           Sample.html_full {| textContent := "One short text. It reads well." |}).
  - reflexivity.
  - reflexivity.
  - vm_compute. discriminate.
Defined.

(** ** The record built from a page *)

(** The alt-tags recorded are those of the images that have an [alt]
    attribute: Cheerio's [map] leaves the others out, so the record holds
    no absent entry. *)
Lemma analyzeOnPageSEO_imageAltTags (env : Env) (html baseUrl : string)
  (tr tr' : trace) (sd : SEOData) :
  analyzeOnPageSEO env html baseUrl tr = (Return sd, tr') ->
  imageAltTags sd = map Some (cheerio_map_get (img_alt (cheerio_load env html))).
Proof.
  unfold analyzeOnPageSEO, checkRobotsTxt, checkSitemap.
  erewrite bind_return by apply probe_200_run.
  erewrite bind_return by apply probe_200_run.
  unfold bind at 1.
  destruct (findBrokenLinks env html baseUrl _) as [[n | e] tr1];
    [| discriminate].
  unfold bind, lift, ret.
  destruct (calculateReadability env html) as [v | e]; [| discriminate].
  intro H. inversion H. reflexivity.
Qed.

Example analyzeOnPageSEO_full_page :
  exists sd tr,
    analyzeOnPageSEO (Sample.online "") Sample.html_full Sample.site []
    = (Return sd, tr)
    /\ calculateOnPageSEOScore sd = 100
    /\ generateSEOScore Sample.lhr sd = Return (Num (inject_Z 100)).
Proof. eexists. eexists. repeat split. Qed.

Example checkStructuredData_none :
  checkStructuredData Sample.offline "<html></html>" = false.
Proof. reflexivity. Qed.

(** * Further properties of the code *)

(** ** The collaborator calls: fetch, browser audit, probes *)

(** X1. Once Chrome is launched it is killed on every exit path of
    [runLighthouseAudit]: whatever Lighthouse and the kill itself answer,
    the effects are the launch, the audit and the kill, in this order and
    once each. *)
Theorem runLighthouseAudit_kills_launched_chrome
  (env : Env) (url : string) (tr : trace) (u : unit) :
  chrome_launch env = Return u ->
  snd (runLighthouseAudit env url tr)
  = tr ++ [ChromeLaunch; LighthouseRun url; ChromeKill].
Proof.
  intro H. unfold runLighthouseAudit. rewrite H.
  cbv [try_finally try_catch bind perform lift ret snd].
  destruct (lighthouse env url), (chrome_kill env) as [[] | e'];
    now rewrite <- !app_assoc.
Qed.

Lemma runLighthouseAudit_kills_launched_chrome_witness :
  snd (runLighthouseAudit Sample.audit_fails Sample.site [])
  = [ChromeLaunch; LighthouseRun Sample.site; ChromeKill].
Proof.
  apply (runLighthouseAudit_kills_launched_chrome Sample.audit_fails
           Sample.site [] tt).
  reflexivity.
Defined.

(** X2. When the launch of Chrome is rejected, [runLighthouseAudit]
    returns [null] without running Lighthouse and without a kill. *)
Theorem runLighthouseAudit_launch_rejected
  (env : Env) (url : string) (tr : trace) (e : error) :
  chrome_launch env = Throw e ->
  runLighthouseAudit env url tr = (Return None, tr ++ [ChromeLaunch]).
Proof.
  intro H. unfold runLighthouseAudit. rewrite H. reflexivity.
Qed.

Lemma runLighthouseAudit_launch_rejected_witness :
  runLighthouseAudit Sample.no_chrome Sample.site []
  = (Return None, [ChromeLaunch]).
Proof.
  apply (runLighthouseAudit_launch_rejected Sample.no_chrome Sample.site []
           (ToolError "spawn ENOENT")).
  reflexivity.
Defined.

(** X3. When the kill of Chrome resolves, [runLighthouseAudit] does not
    throw: it returns the Lighthouse result when both the launch and the
    audit resolved, and [null] otherwise. *)
Theorem runLighthouseAudit_null_on_failure
  (env : Env) (url : string) (tr : trace) (u : unit) :
  chrome_kill env = Return u ->
  fst (runLighthouseAudit env url tr)
  = Return (match chrome_launch env, lighthouse env url with
            | Return _, Return lhr => Some lhr
            | _, _ => None
            end).
Proof.
  intro H. unfold runLighthouseAudit.
  destruct (chrome_launch env) as [[] | e].
  - cbv [try_finally try_catch bind perform lift ret fst]. rewrite H.
    now destruct (lighthouse env url).
  - reflexivity.
Qed.

Lemma runLighthouseAudit_null_on_failure_witness :
  fst (runLighthouseAudit Sample.audit_fails Sample.site []) = Return None.
Proof.
  apply (runLighthouseAudit_null_on_failure Sample.audit_fails Sample.site [] tt).
  reflexivity.
Defined.

(** X4. When Chrome was launched and its kill is rejected,
    [runLighthouseAudit] throws the error of the kill, also when the
    audit itself had succeeded: the result of the audit is lost. *)
Theorem runLighthouseAudit_kill_rejected
  (env : Env) (url : string) (tr : trace) (u : unit) (e : error) :
  chrome_launch env = Return u ->
  chrome_kill env = Throw e ->
  fst (runLighthouseAudit env url tr) = Throw e.
Proof.
  intros Hl Hk. unfold runLighthouseAudit. rewrite Hl.
  cbv [try_finally try_catch bind perform lift ret fst]. rewrite Hk.
  now destruct (lighthouse env url).
Qed.

Lemma runLighthouseAudit_kill_rejected_witness :
  fst (runLighthouseAudit Sample.kill_fails Sample.site [])
  = Throw (ToolError "EPERM").
Proof.
  apply (runLighthouseAudit_kill_rejected Sample.kill_fails Sample.site [] tt).
  - reflexivity.
  - reflexivity.
Defined.

(** X5. [checkRobotsTxt] and [checkSitemap] never throw and send one
    request each, to the base URL followed by [/robots.txt] and
    [/sitemap.xml]; the answer is [true] exactly when the request resolves
    with status 200 (a rejection, or another status, gives [false]). *)
Theorem checkRobotsTxt_checkSitemap_status_200
  (env : Env) (baseUrl : string) (tr : trace) :
  (exists b,
      checkRobotsTxt env baseUrl tr
      = (Return b, tr ++ [HttpGet (baseUrl ++ "/robots.txt")])
      /\ (b = true <->
          exists response,
            axios_get env (n_gets tr) (baseUrl ++ "/robots.txt")
            = Resolved response /\ status response = 200%Z))
  /\ (exists b,
         checkSitemap env baseUrl tr
         = (Return b, tr ++ [HttpGet (baseUrl ++ "/sitemap.xml")])
         /\ (b = true <->
             exists response,
               axios_get env (n_gets tr) (baseUrl ++ "/sitemap.xml")
               = Resolved response /\ status response = 200%Z)).
Proof.
  assert (forall u,
             is_200 (axios_get env (n_gets tr) u) = true <->
             exists response,
               axios_get env (n_gets tr) u = Resolved response
               /\ status response = 200%Z) as Hiff.
  { intro u. unfold is_200.
    destruct (axios_get env (n_gets tr) u) as [response | message].
    - rewrite Z.eqb_eq. split.
      + intro H. now exists response.
      + intros [r [E H]]. now inversion E; subst.
    - split; [discriminate | intros [r [E _]]; discriminate]. }
  split; eexists; (split; [apply probe_200_run | apply Hiff]).
Qed.

(** [checkStructuredData] answers [true] exactly when the first
    [ld+json] script block has a non-empty content or some element carries
    [itemscope]; an empty script block alone does not count. *)
Theorem checkStructuredData_iff (env : Env) (html : string) :
  checkStructuredData env html = true
  <-> (exists s, jsonld_html (cheerio_load env html) = Some s /\ s <> "")
      \/ 0 < itemscope_length (cheerio_load env html).
Proof.
  unfold checkStructuredData. rewrite orb_true_iff, Nat.ltb_lt.
  apply or_iff_compat_r. apply truthy_opt_true_iff.
Qed.

(** ** More on the broken-link check *)

Lemma requests_app (tr1 tr2 : trace) :
  requests (tr1 ++ tr2) = requests tr1 ++ requests tr2.
Proof. unfold requests. apply flat_map_app. Qed.

Lemma requests_HttpGet (urls : list string) :
  requests (map HttpGet urls) = urls.
Proof.
  unfold requests. induction urls as [| u urls IH]; simpl; congruence.
Qed.

Lemma broken_from_le (env : Env) (urls : list string) (k : nat) :
  broken_from env k urls <= List.length urls.
Proof.
  revert k. induction urls as [| u urls IH]; intro k; simpl; [lia |].
  specialize (IH (S k)). destruct (is_broken (axios_get env k u)). all: lia.
Qed.

Lemma extract_links_length (hrefs : list (option string)) :
  List.length (extract_links hrefs) <= List.length hrefs.
Proof.
  assert (List.length (cheerio_map_get hrefs) <= List.length hrefs) as H.
  { unfold cheerio_map_get.
    induction hrefs as [| [h|] hrefs IH]; simpl; lia. }
  pose proof (filter_length_le keep_link (cheerio_map_get hrefs)) as H'.
  unfold extract_links. lia.
Qed.

(** A loop that returns has resolved every link. *)
Lemma probe_links_returned (env : Env) (baseUrl : string)
  (links : list string) :
  forall (n m : nat) (tr tr' : trace),
    probe_links env baseUrl links n tr = (Return m, tr') ->
    exists urls,
      Forall2 (fun link u => URL_href env link baseUrl = Some u) links urls.
Proof.
  induction links as [| l links IH]; intros n m tr tr' H.
  - exists []. constructor.
  - simpl in H. unfold new_URL_href in H.
    destruct (URL_href env l baseUrl) as [u|] eqn:Hu; [| discriminate].
    erewrite bind_return in H by reflexivity.
    erewrite bind_return in H by apply probe_step.
    destruct (IH _ _ _ _ H) as [urls Hurls].
    exists (u :: urls). now constructor.
Qed.

(** The loop over a list of links whose first part resolves. *)
Lemma probe_links_app (env : Env) (baseUrl : string)
  (pre urls rest : list string) :
  Forall2 (fun link u => URL_href env link baseUrl = Some u) pre urls ->
  forall (n : nat) (tr : trace),
    probe_links env baseUrl (pre ++ rest) n tr
    = probe_links env baseUrl rest (n + broken_from env (n_gets tr) urls)
        (tr ++ map HttpGet urls).
Proof.
  induction 1 as [| link u pre urls Hu _ IH]; intros n tr; simpl.
  - now rewrite Nat.add_0_r, app_nil_r.
  - unfold new_URL_href. rewrite Hu.
    erewrite bind_return by reflexivity.
    erewrite bind_return by apply probe_step.
    rewrite IH, n_gets_snoc, <- app_assoc. simpl.
    f_equal. lia.
Qed.

(** X6. Whenever [findBrokenLinks] returns, the count is at most the
    number of links probed, which is at most the number of anchors of the
    document, and exactly one request per link probed was sent. *)
Theorem findBrokenLinks_bounded
  (env : Env) (html baseUrl : string) (tr tr' : trace) (n : nat) :
  findBrokenLinks env html baseUrl tr = (Return n, tr') ->
  n <= List.length (extract_links (a_href (cheerio_load env html)))
  /\ List.length (extract_links (a_href (cheerio_load env html)))
     <= List.length (a_href (cheerio_load env html))
  /\ List.length (requests tr')
     = List.length (requests tr)
       + List.length (extract_links (a_href (cheerio_load env html))).
Proof.
  unfold findBrokenLinks. intro H.
  destruct (probe_links_returned _ _ _ _ _ _ _ H) as [urls Hurls].
  rewrite (probe_links_resolved _ _ _ _ Hurls) in H. inversion H; subst.
  rewrite (Forall2_length Hurls).
  split; [apply broken_from_le |].
  split; [rewrite <- (Forall2_length Hurls); apply extract_links_length |].
  now rewrite requests_app, requests_HttpGet, length_app.
Qed.

Lemma findBrokenLinks_bounded_witness :
  2 <= 3 /\ 3 <= 3 /\ 3 = 0 + 3.
Proof.
  apply (findBrokenLinks_bounded (Sample.online "") Sample.html_abc
           Sample.site []
           [HttpGet "https://example.com/a"; HttpGet "https://example.com/b";
            HttpGet "https://example.com/c"] 2).
  reflexivity.
Defined.

(** X7. A document whose anchors are all fragment links, or lack an href,
    or have an empty one, is checked without any request, and its count
    is 0. *)
Theorem findBrokenLinks_no_link_to_probe
  (env : Env) (html baseUrl : string) (tr : trace) :
  Forall (fun h => h = None
                   \/ exists s, h = Some s /\ (s = "" \/ startsWith "#" s = true))
         (a_href (cheerio_load env html)) ->
  findBrokenLinks env html baseUrl tr = (Return 0, tr).
Proof.
  intro H. unfold findBrokenLinks.
  assert (extract_links (a_href (cheerio_load env html)) = []) as ->;
    [| reflexivity].
  unfold extract_links, cheerio_map_get.
  induction H as [| h hs Hh _ IH]; [reflexivity |].
  destruct Hh as [-> | [s [-> [-> | Hs]]]]; simpl; try assumption.
  unfold keep_link. rewrite Hs, andb_false_r. assumption.
Qed.

Lemma findBrokenLinks_no_link_to_probe_witness :
  findBrokenLinks (Sample.with_dom Sample.dom_fragments Sample.offline)
    Sample.html_fragments Sample.site []
  = (Return 0, []).
Proof.
  apply findBrokenLinks_no_link_to_probe.
  apply Forall_cons; [| apply Forall_cons; [| apply Forall_cons; [| apply Forall_nil]]].
  - right. exists "#top". split; [reflexivity | right; reflexivity].
  - left. reflexivity.
  - right. exists "". split; [reflexivity | left; reflexivity].
Defined.

(** X8. [findBrokenLinks] stops at the first link that the URL
    constructor refuses: the links before it have been probed, the links
    after it are not, and the [TypeError] is thrown in place of a count. *)
Theorem findBrokenLinks_stops_at_unresolvable_link
  (env : Env) (html baseUrl : string) (tr : trace)
  (before after urls : list string) (bad : string) :
  extract_links (a_href (cheerio_load env html)) = before ++ bad :: after ->
  Forall2 (fun link u => URL_href env link baseUrl = Some u) before urls ->
  URL_href env bad baseUrl = None ->
  findBrokenLinks env html baseUrl tr
  = (Throw (TypeError "Invalid URL"), tr ++ map HttpGet urls).
Proof.
  intros Hlinks Hbefore Hbad. unfold findBrokenLinks.
  rewrite Hlinks, (probe_links_app _ _ _ _ _ Hbefore). simpl.
  unfold new_URL_href. rewrite Hbad. reflexivity.
Qed.

Lemma findBrokenLinks_stops_at_unresolvable_link_witness :
  findBrokenLinks (Sample.with_dom Sample.dom_a_bad_b (Sample.online ""))
    Sample.html_a_bad_b Sample.site []
  = (Throw (TypeError "Invalid URL"), [HttpGet "https://example.com/a"]).
Proof.
  apply (findBrokenLinks_stops_at_unresolvable_link
           (Sample.with_dom Sample.dom_a_bad_b (Sample.online ""))
           Sample.html_a_bad_b Sample.site [] ["/a"] ["/b"]
           ["https://example.com/a"] "http://").
  - reflexivity.
  - repeat constructor.
  - reflexivity.
Defined.

(** ** More on the keyword density *)

Lemma split_runs_no_sep (sep : ascii -> bool) (s : string) (in_run : bool) :
  Forall (fun piece => forallb (fun c => negb (sep c)) (list_ascii_of_string piece)
                       = true)
         (split_runs sep in_run s).
Proof.
  revert in_run. induction s as [| c s IH]; intro in_run; simpl.
  - repeat constructor.
  - destruct (sep c) eqn:Hc.
    + destruct in_run; [apply IH |]. constructor; [reflexivity | apply IH].
    + specialize (IH false).
      destruct (split_runs sep false s) as [| p ps].
      * repeat constructor. simpl. now rewrite Hc.
      * inversion IH; subst. constructor; [| assumption].
        simpl. now rewrite Hc.
Qed.

(** X9. Every token of a body text is non-empty and holds no white-space
    character. *)
Theorem tokens_nonempty_no_space (text : string) :
  Forall (fun word => word <> "" /\ no_space word = true) (tokens text).
Proof.
  unfold tokens, split. apply Forall_forall. intros word Hin.
  apply filter_In in Hin. destruct Hin as [Hin Hlen]. split.
  - destruct word; [discriminate | discriminate].
  - pose proof (split_runs_no_sep is_space text false) as H.
    rewrite Forall_forall in H. exact (H word Hin).
Qed.

Lemma toFixed2_Qeq (toString : Q -> string) (q q' : Q) :
  (q == q')%Q ->
  Qle_bool (inject_Z (10 ^ 21)) (Qabs q') = false ->
  toFixed2 toString (Num q) = toFixed2 toString (Num q').
Proof.
  intros E H. unfold toFixed2, Qneg_b, round_half_up.
  assert (Qle_bool (inject_Z (10 ^ 21)) (Qabs q)
          = Qle_bool (inject_Z (10 ^ 21)) (Qabs q')) as -> by now rewrite E.
  rewrite H.
  assert (Qle_bool 0 q = Qle_bool 0 q') as -> by now rewrite E.
  assert (Qfloor (Qabs q * 100 + (1 # 2)) = Qfloor (Qabs q' * 100 + (1 # 2)))%Q
    as -> by now rewrite E.
  reflexivity.
Qed.

Lemma filter_all {A} (f : A -> bool) (l : list A) :
  Forall (fun x => f x = true) l -> filter f l = l.
Proof.
  induction 1 as [| x l Hx _ IH]; simpl; [reflexivity |].
  now rewrite Hx, IH.
Qed.

Lemma filter_none {A} (f : A -> bool) (l : list A) :
  Forall (fun x => f x = false) l -> filter f l = [].
Proof.
  induction 1 as [| x l Hx _ IH]; simpl; [reflexivity |].
  now rewrite Hx.
Qed.

(** X10. When the body text is ASCII, has tokens and none of them is the
    keyword (whatever their case), the density reported is [0.00]. *)
Theorem calculateKeywordDensity_keyword_absent (env : Env) (html : string) :
  is_ascii_text (body_text (cheerio_load env html)) = true ->
  tokens (body_text (cheerio_load env html)) <> [] ->
  Forall (fun word => toLowerCase word <> targetKeyword)
         (tokens (body_text (cheerio_load env html))) ->
  calculateKeywordDensity env html = "0.00".
Proof.
  intros _ Hne Hno. unfold calculateKeywordDensity.
  set (words := tokens (body_text (cheerio_load env html))) in *.
  rewrite filter_none.
  2:{ eapply Forall_impl; [| exact Hno]. intros w Hw. now apply String.eqb_neq. }
  assert (List.length words <> 0) as Hlen by (destruct words; simpl; congruence).
  rewrite (div_of_nat _ _ Hlen). cbn [mul of_nat].
  rewrite (toFixed2_Qeq _ _ 0%Q); [reflexivity | | reflexivity].
  simpl. unfold Qdiv. ring.
Qed.

Lemma calculateKeywordDensity_keyword_absent_witness :
  calculateKeywordDensity Sample.offline Sample.html_b = "0.00".
Proof.
  apply calculateKeywordDensity_keyword_absent.
  - reflexivity.
  - discriminate.
  - repeat constructor. discriminate.
Defined.

(** X11. When the body text has tokens and every one of them is the
    keyword (whatever their case), the density reported is [100.00]. *)
Theorem calculateKeywordDensity_keyword_only (env : Env) (html : string) :
  tokens (body_text (cheerio_load env html)) <> [] ->
  Forall (fun word => toLowerCase word = targetKeyword)
         (tokens (body_text (cheerio_load env html))) ->
  calculateKeywordDensity env html = "100.00".
Proof.
  intros Hne Hall. unfold calculateKeywordDensity.
  set (words := tokens (body_text (cheerio_load env html))) in *.
  rewrite filter_all.
  2:{ eapply Forall_impl; [| exact Hall]. intros w Hw. now apply String.eqb_eq. }
  assert (List.length words <> 0) as Hlen by (destruct words; simpl; congruence).
  rewrite (div_of_nat _ _ Hlen). cbn [mul of_nat].
  rewrite (toFixed2_Qeq _ _ (100 # 1)%Q); [reflexivity | | reflexivity].
  assert (~ (inject_Z (Z.of_nat (List.length words)) == 0)%Q) as Hnz.
  { change 0%Q with (inject_Z 0). rewrite inject_Z_injective. lia. }
  change (inject_Z (Z.of_nat 100)) with (100 # 1)%Q. now field.
Qed.

Lemma calculateKeywordDensity_keyword_only_witness :
  calculateKeywordDensity
    (Sample.with_docs
       [(Sample.html_keyword_only, Sample.dom_body "Example EXAMPLE example")]
       Sample.offline)
    Sample.html_keyword_only
  = "100.00".
Proof.
  apply calculateKeywordDensity_keyword_only.
  - discriminate.
  - repeat constructor.
Defined.

Lemma filter_map_length {A B} (f : B -> bool) (g : A -> B) (l : list A) :
  List.length (filter f (map g l)) = List.length (filter (fun x => f (g x)) l).
Proof.
  induction l as [| x l IH]; simpl; [reflexivity |].
  destruct (f (g x)); simpl; congruence.
Qed.

(** X12. The density does not depend on the case of the tokens nor on the
    white space between them: two documents whose tokens are the same once
    put in lower case get the same density. *)
Theorem calculateKeywordDensity_case_insensitive
  (env : Env) (html1 html2 : string) :
  map toLowerCase (tokens (body_text (cheerio_load env html1)))
  = map toLowerCase (tokens (body_text (cheerio_load env html2))) ->
  calculateKeywordDensity env html1 = calculateKeywordDensity env html2.
Proof.
  intro H. unfold calculateKeywordDensity.
  set (w1 := tokens (body_text (cheerio_load env html1))) in *.
  set (w2 := tokens (body_text (cheerio_load env html2))) in *.
  rewrite <- (filter_map_length (fun s => String.eqb s targetKeyword) toLowerCase w1).
  rewrite <- (filter_map_length (fun s => String.eqb s targetKeyword) toLowerCase w2).
  rewrite H.
  assert (List.length w1 = List.length w2) as ->.
  { rewrite <- (length_map toLowerCase w1), H. apply length_map. }
  reflexivity.
Qed.

Lemma calculateKeywordDensity_case_insensitive_witness :
  calculateKeywordDensity
    (Sample.with_docs
       [(Sample.html_words1, Sample.dom_body "Example page");
        (Sample.html_shout, Sample.dom_body "EXAMPLE  page")] Sample.offline)
    Sample.html_words1
  = calculateKeywordDensity
      (Sample.with_docs
         [(Sample.html_words1, Sample.dom_body "Example page");
          (Sample.html_shout, Sample.dom_body "EXAMPLE  page")] Sample.offline)
      Sample.html_shout.
Proof.
  apply calculateKeywordDensity_case_insensitive. reflexivity.
Defined.

(** ** Scores *)

(** X13. The on-page score is a multiple of 20 and at most 100. *)
Theorem calculateOnPageSEOScore_range (sd : SEOData) :
  exists checks, calculateOnPageSEOScore sd = 20 * checks /\ checks <= 5.
Proof.
  rewrite calculateOnPageSEOScore_sum. eexists. split; [reflexivity |].
  destruct (truthy (title sd)), (truthy (metaDescription sd)),
    (Nat.eqb (h1Count sd) 1), (truthy (canonicalLink sd)),
    (forallb truthy_opt (imageAltTags sd)); simpl; lia.
Qed.

Lemma calculateOnPageSEOScore_le_100 (sd : SEOData) :
  calculateOnPageSEOScore sd <= 100.
Proof.
  rewrite calculateOnPageSEOScore_sum.
  destruct (truthy (title sd)), (truthy (metaDescription sd)),
    (Nat.eqb (h1Count sd) 1), (truthy (canonicalLink sd)),
    (forallb truthy_opt (imageAltTags sd)); simpl; lia.
Qed.

Lemma overall_in_range (x : Q) (p : nat) :
  (0 <= x <= 1)%Q -> p <= 100 ->
  (0 <= round_half_up ((x * inject_Z 100 + inject_Z (Z.of_nat p)) / inject_Z 2)
   <= 100)%Z.
Proof.
  intros Hx Hp. unfold round_half_up.
  assert (0 <= inject_Z (Z.of_nat p) <= 100 # 1)%Q as HP.
  { change 0%Q with (inject_Z 0). change (100 # 1)%Q with (inject_Z 100).
    rewrite <- !Zle_Qle. lia. }
  set (P := inject_Z (Z.of_nat p)) in *. clearbody P.
  change (inject_Z 100) with (100 # 1)%Q. unfold Qdiv.
  change (/ inject_Z 2)%Q with (1 # 2)%Q.
  split.
  - apply (Z.le_trans _ (Qfloor (0 + (1 # 2)))); [discriminate |].
    apply Qfloor_resp_le. lra.
  - apply (Z.le_trans _ (Qfloor ((100 # 1) + (1 # 2)))); [| discriminate].
    apply Qfloor_resp_le. lra.
Qed.

Lemma generateSEOScore_in_range (lh : LighthouseResults) (c : Category)
  (sd : SEOData) :
  seo (categories lh) = Some c ->
  (forall x, score c = Some x -> (0 <= x <= 1)%Q) ->
  exists z, generateSEOScore lh sd = Return (Num (inject_Z z))
            /\ (0 <= z <= 100)%Z.
Proof.
  intros Hc Hx. rewrite (generateSEOScore_present lh c sd Hc).
  eexists. split; [reflexivity |].
  apply overall_in_range; [| apply calculateOnPageSEOScore_le_100].
  destruct (score c) as [x|]; [now apply Hx | split; discriminate].
Qed.

(** X14. With the [seo] category present and its score [null] or a number
    between 0 and 1, [generateSEOScore] returns an integer between 0 and
    100. *)
Theorem generateSEOScore_range (lh : LighthouseResults) (c : Category)
  (sd : SEOData) :
  seo (categories lh) = Some c ->
  (forall x, score c = Some x -> (0 <= x <= 1)%Q) ->
  exists z, generateSEOScore lh sd = Return (Num (inject_Z z))
            /\ (0 <= z <= 100)%Z.
Proof.
  intros Hc Hx. rewrite (generateSEOScore_present lh c sd Hc).
  exists (round_half_up
            ((match score c with Some x => x | None => 0%Q end * inject_Z 100
              + inject_Z (Z.of_nat (calculateOnPageSEOScore sd))) / inject_Z 2)%Q).
  split; [reflexivity |].
  apply overall_in_range.
  - destruct (score c) as [x|]; [now apply Hx | split; discriminate].
  - apply calculateOnPageSEOScore_le_100.
Qed.

Lemma generateSEOScore_range_witness :
  exists z, generateSEOScore Sample.lhr Sample.seo_full = Return (Num (inject_Z z))
            /\ (0 <= z <= 100)%Z.
Proof.
  apply (generateSEOScore_range Sample.lhr {| score := Some 1%Q |}
           Sample.seo_full).
  - reflexivity.
  - intros x H. inversion H; subst. split; discriminate.
Defined.

(** X15. [generateSEOScore] is monotone: a higher browser SEO score and a
    higher on-page score never give a lower overall score. *)
Theorem generateSEOScore_monotone (lh lh' : LighthouseResults) (x x' : Q)
  (sd sd' : SEOData) :
  seo (categories lh) = Some {| score := Some x |} ->
  seo (categories lh') = Some {| score := Some x' |} ->
  (x <= x')%Q ->
  calculateOnPageSEOScore sd <= calculateOnPageSEOScore sd' ->
  exists z z',
    generateSEOScore lh sd = Return (Num (inject_Z z))
    /\ generateSEOScore lh' sd' = Return (Num (inject_Z z'))
    /\ (z <= z')%Z.
Proof.
  intros H H' Hx Hp.
  rewrite (generateSEOScore_present lh _ sd H).
  rewrite (generateSEOScore_present lh' _ sd' H').
  eexists. eexists. split; [reflexivity |]. split; [reflexivity |].
  unfold round_half_up. apply Qfloor_resp_le. simpl.
  assert (inject_Z (Z.of_nat (calculateOnPageSEOScore sd))
          <= inject_Z (Z.of_nat (calculateOnPageSEOScore sd')))%Q as HP
      by (rewrite <- Zle_Qle; lia).
  set (P := inject_Z (Z.of_nat (calculateOnPageSEOScore sd))) in *.
  set (P' := inject_Z (Z.of_nat (calculateOnPageSEOScore sd'))) in *.
  clearbody P P'.
  change (inject_Z 100) with (100 # 1)%Q. unfold Qdiv.
  change (/ inject_Z 2)%Q with (1 # 2)%Q.
  lra.
Qed.

Lemma generateSEOScore_monotone_witness :
  exists z z',
    generateSEOScore
      {| categories := {| performance := None;
                          seo := Some {| score := Some (1 # 2)%Q |};
                          accessibility := None; best_practices := None |} |}
      Sample.seo_full = Return (Num (inject_Z z))
    /\ generateSEOScore Sample.lhr Sample.seo_full = Return (Num (inject_Z z'))
    /\ (z <= z')%Z.
Proof.
  apply (generateSEOScore_monotone _ Sample.lhr (1 # 2)%Q 1%Q).
  - reflexivity.
  - reflexivity.
  - discriminate.
  - apply le_n.
Defined.

(** The TypeScript [generateSEOScore] never throws: for every
    Lighthouse result whose SEO score, when there is one, lies between 0
    and 1, it returns an integer between 0 and 100, the absent category
    and the [null] score counting as 0. *)
Theorem TS_generateSEOScore_range (lh : LighthouseResults) (sd : SEOData) :
  (forall c x, seo (categories lh) = Some c -> score c = Some x ->
               (0 <= x <= 1)%Q) ->
  exists z, TS.generateSEOScore lh sd = Num (inject_Z z) /\ (0 <= z <= 100)%Z.
Proof.
  intro Hx. rewrite TS_generateSEOScore_total. eexists. split; [reflexivity |].
  apply overall_in_range; [| apply calculateOnPageSEOScore_le_100].
  destruct (seo (categories lh)) as [c|]; [| split; discriminate].
  destruct (score c) as [x|] eqn:E; [now apply (Hx c x) | split; discriminate].
Qed.

Lemma TS_generateSEOScore_range_witness :
  exists z,
    TS.generateSEOScore
      {| categories := {| performance := None; seo := None;
                          accessibility := None; best_practices := None |} |}
      Sample.seo_full = Num (inject_Z z)
    /\ (0 <= z <= 100)%Z.
Proof.
  apply TS_generateSEOScore_range. intros c x H. discriminate H.
Defined.

(** ** Readability, continued *)

(** X16. The readability formula never divides by zero: for every text,
    the empty one included, its value is a finite number, and it is at
    most 206.835. *)
Theorem readability_formula_finite (text : string) :
  exists q, readability_formula text = Num q /\ (q <= 206835 # 1000)%Q.
Proof.
  unfold readability_formula.
  pose proof (split_runs_length is_space text false) as Hw.
  pose proof (split_runs_length is_sentence_end text false) as Hs.
  fold (split is_space text) in Hw. fold (split is_sentence_end text) in Hs.
  set (w := List.length (split is_space text)) in *.
  set (s := List.length (split is_sentence_end text)) in *.
  set (y := List.length (filter is_vowel (chars text))).
  rewrite !div_of_nat by lia. cbn [sub add opp mul].
  eexists. split; [reflexivity |].
  destruct (Qdiv_nat_bounds w s ltac:(lia)) as [Hr1 _].
  destruct (Qdiv_nat_bounds y w ltac:(lia)) as [Hr2 _].
  set (r1 := (inject_Z (Z.of_nat w) / inject_Z (Z.of_nat s))%Q) in *.
  set (r2 := (inject_Z (Z.of_nat y) / inject_Z (Z.of_nat w))%Q) in *.
  clearbody r1 r2. lra.
Qed.

Lemma decimal2_nonempty (s : string) : Spec.decimal2 s -> s <> "".
Proof.
  intros [sign [int [frac [-> [Hsign [Hint _]]]]]] H.
  destruct Hsign as [-> | ->]; [| discriminate].
  destruct int; [now apply Hint | discriminate].
Qed.

(** X17. The TypeScript [calculateReadability] never throws, and for a
    text within the maximal string length it reports the empty string
    exactly when no article is extracted. *)
Theorem TS_calculateReadability_empty_iff (env : Env) (html : string) :
  (forall article, Readability_parse env html = Some article ->
     (Z.of_nat (String.length (textContent article)) <= max_string_length)%Z) ->
  (TS.calculateReadability env html = "" <-> Readability_parse env html = None).
Proof.
  intro Hlen. unfold TS.calculateReadability.
  destruct (Readability_parse env html) as [article|].
  - split; [| discriminate]. intro H. exfalso.
    apply (decimal2_nonempty _
             (readability_formula_decimal2 (Number_toString env) _
                (Hlen article eq_refl))).
    exact H.
  - split; reflexivity.
Qed.

Lemma TS_calculateReadability_empty_iff_witness :
  TS.calculateReadability
    (Sample.readerable Sample.html_full "One short text. It reads well.")
    Sample.html_full
  = ""
  <-> Readability_parse
        (Sample.readerable Sample.html_full "One short text. It reads well.")
        Sample.html_full
      = None.
Proof.
  apply TS_calculateReadability_empty_iff.
  intros article H. inversion H; subst. vm_compute. discriminate.
Defined.

(** ** The analysis of a page, continued *)

(** The run of [analyzeOnPageSEO] up to the readability step, when every
    link kept resolves. *)
Lemma analyzeOnPageSEO_run (env : Env) (html baseUrl : string)
  (urls : list string) (tr : trace) :
  Forall2 (fun link u => URL_href env link baseUrl = Some u)
          (extract_links (a_href (cheerio_load env html))) urls ->
  analyzeOnPageSEO env html baseUrl tr
  = (match calculateReadability env html with
     | Return v =>
         Return
           {| title := trim (title_text (cheerio_load env html));
              metaDescription := or_empty (meta_description (cheerio_load env html));
              h1Count := h1_length (cheerio_load env html);
              h2Count := h2_length (cheerio_load env html);
              imageAltTags := map Some (cheerio_map_get (img_alt (cheerio_load env html)));
              canonicalLink := or_empty (canonical_href (cheerio_load env html));
              robotsTxt := is_200 (axios_get env (n_gets tr) (baseUrl ++ "/robots.txt"));
              sitemap := is_200 (axios_get env (S (n_gets tr)) (baseUrl ++ "/sitemap.xml"));
              structuredData := checkStructuredData env html;
              brokenLinks := broken_from env (S (S (n_gets tr))) urls;
              keywordDensity := calculateKeywordDensity env html;
              readability := v |}
     | Throw e => Throw e
     end,
     tr ++ HttpGet (baseUrl ++ "/robots.txt")
        :: HttpGet (baseUrl ++ "/sitemap.xml") :: map HttpGet urls).
Proof.
  intro Hres. unfold analyzeOnPageSEO, checkRobotsTxt, checkSitemap.
  erewrite bind_return by apply probe_200_run.
  erewrite bind_return by apply probe_200_run.
  unfold findBrokenLinks.
  erewrite bind_return by apply (probe_links_resolved _ _ _ _ Hres).
  rewrite !n_gets_snoc, <- !app_assoc. simpl.
  unfold bind, lift, ret.
  destruct (calculateReadability env html); reflexivity.
Qed.

(** X18. The alt-text points go by the images that have an [alt]
    attribute: in the record of a page the alt check passes exactly when
    no image has an empty [alt]; an image without the attribute does not
    fail it. *)
Theorem analyzeOnPageSEO_alt_check (env : Env) (html baseUrl : string)
  (tr tr' : trace) (sd : SEOData) :
  analyzeOnPageSEO env html baseUrl tr = (Return sd, tr') ->
  (forallb truthy_opt (imageAltTags sd) = true
   <-> Forall (fun alt => alt <> Some "") (img_alt (cheerio_load env html))).
Proof.
  intro H. rewrite (analyzeOnPageSEO_imageAltTags _ _ _ _ _ _ H).
  unfold cheerio_map_get.
  induction (img_alt (cheerio_load env html)) as [| alt alts IH]; simpl.
  - split; [constructor | reflexivity].
  - destruct alt as [s|]; simpl.
    + rewrite andb_true_iff, IH, truthy_true_iff. split.
      * intros [Hs Ha]. constructor; [congruence | assumption].
      * intro Hf. inversion Hf; subst. split; [congruence | assumption].
    + rewrite IH. split.
      * intro Ha. constructor; [discriminate | assumption].
      * intro Hf. now inversion Hf.
Qed.

Lemma analyzeOnPageSEO_alt_check_witness :
  exists sd tr',
    analyzeOnPageSEO (Sample.online "") Sample.html_full Sample.site []
    = (Return sd, tr')
    /\ (forallb truthy_opt (imageAltTags sd) = true
        <-> Forall (fun alt => alt <> Some "")
                   (img_alt (cheerio_load (Sample.online "") Sample.html_full))).
Proof.
  eexists. eexists. split; [reflexivity |].
  eapply (analyzeOnPageSEO_alt_check (Sample.online "") Sample.html_full
            Sample.site []).
  reflexivity.
Defined.

Lemma trimStart_all_space (s : string) :
  all_space s = true -> trimStart s = "".
Proof.
  unfold all_space. induction s as [| c s IH]; simpl; [reflexivity |].
  intro H. apply andb_true_iff in H. destruct H as [Hc Hs].
  rewrite Hc. now apply IH.
Qed.

Lemma trim_all_space (s : string) : all_space s = true -> trim s = "".
Proof.
  intro H. unfold trim. now rewrite (trimStart_all_space s H).
Qed.

(** X19. A page whose title is white space only gets an empty title in
    its record, and so at most 80 points. *)
Theorem analyzeOnPageSEO_blank_title (env : Env) (html baseUrl : string)
  (tr tr' : trace) (sd : SEOData) :
  analyzeOnPageSEO env html baseUrl tr = (Return sd, tr') ->
  all_space (title_text (cheerio_load env html)) = true ->
  title sd = "" /\ calculateOnPageSEOScore sd <= 80.
Proof.
  intros H Hsp.
  assert (title sd = "") as Ht.
  { revert H. unfold analyzeOnPageSEO, checkRobotsTxt, checkSitemap.
    erewrite bind_return by apply probe_200_run.
    erewrite bind_return by apply probe_200_run.
    unfold bind at 1.
    destruct (findBrokenLinks env html baseUrl _) as [[n | e] tr1];
      [| discriminate].
    unfold bind, lift, ret.
    destruct (calculateReadability env html) as [v | e]; [| discriminate].
    intro H. inversion H. simpl. now apply trim_all_space. }
  split; [assumption |].
  rewrite calculateOnPageSEOScore_sum, Ht. simpl.
  destruct (truthy (metaDescription sd)), (Nat.eqb (h1Count sd) 1),
    (truthy (canonicalLink sd)), (forallb truthy_opt (imageAltTags sd));
    simpl; lia.
Qed.

Lemma analyzeOnPageSEO_blank_title_witness :
  all_space
    (title_text
       (cheerio_load
          (Sample.with_docs
             [(Sample.html_blank_title, Sample.dom_blank_title)]
             (Sample.online ""))
          Sample.html_blank_title))
  = true
  /\ title_text Sample.dom_blank_title = "   "
  /\ exists sd tr',
       analyzeOnPageSEO
         (Sample.with_docs [(Sample.html_blank_title, Sample.dom_blank_title)]
            (Sample.online ""))
         Sample.html_blank_title Sample.site []
       = (Return sd, tr')
       /\ title sd = "" /\ calculateOnPageSEOScore sd <= 80.
Proof.
  split; [reflexivity |]. split; [reflexivity |].
  eexists. eexists. split; [reflexivity |].
  eapply (analyzeOnPageSEO_blank_title
            (Sample.with_docs [(Sample.html_blank_title, Sample.dom_blank_title)]
               (Sample.online ""))
            Sample.html_blank_title Sample.site []).
  - reflexivity.
  - reflexivity.
Defined.

(** X20. When a document is judged readerable and no article is
    extracted, the analysis throws the [TypeError] of
    [calculateReadability] after all its requests (robots, sitemap, every
    link) were sent. *)
Theorem analyzeOnPageSEO_null_article_throws
  (env : Env) (html baseUrl : string) (urls : list string) (tr : trace) :
  Forall2 (fun link u => URL_href env link baseUrl = Some u)
          (extract_links (a_href (cheerio_load env html))) urls ->
  isProbablyReaderable env html = true ->
  Readability_parse env html = None ->
  analyzeOnPageSEO env html baseUrl tr
  = (Throw (TypeError "Cannot read properties of null (reading 'textContent')"),
     tr ++ HttpGet (baseUrl ++ "/robots.txt")
        :: HttpGet (baseUrl ++ "/sitemap.xml") :: map HttpGet urls).
Proof.
  intros Hres H1 H2. rewrite (analyzeOnPageSEO_run _ _ _ _ _ Hres).
  now rewrite (calculateReadability_null_article_throws _ _ H1 H2).
Qed.

Lemma analyzeOnPageSEO_null_article_throws_witness :
  analyzeOnPageSEO (Sample.no_article "") Sample.html_b Sample.site []
  = (Throw (TypeError "Cannot read properties of null (reading 'textContent')"),
     [HttpGet "https://example.com/robots.txt";
      HttpGet "https://example.com/sitemap.xml";
      HttpGet "https://example.com/b"]).
Proof.
  apply (analyzeOnPageSEO_null_article_throws (Sample.no_article "")
           Sample.html_b Sample.site ["https://example.com/b"] []).
  - repeat constructor.
  - reflexivity.
  - reflexivity.
Defined.

Lemma TS_analyzeOnPageSEO_run (env : Env) (html baseUrl : string)
  (urls : list string) (tr : trace) :
  Forall2 (fun link u => URL_href env link baseUrl = Some u)
          (extract_links (a_href (cheerio_load env html))) urls ->
  exists sd,
    TS.analyzeOnPageSEO env html baseUrl tr
    = (Return sd,
       tr ++ HttpGet (baseUrl ++ "/robots.txt")
          :: HttpGet (baseUrl ++ "/sitemap.xml") :: map HttpGet urls).
Proof.
  intro Hres. unfold TS.analyzeOnPageSEO, checkRobotsTxt, checkSitemap.
  erewrite bind_return by apply probe_200_run.
  erewrite bind_return by apply probe_200_run.
  unfold findBrokenLinks.
  erewrite bind_return by apply (probe_links_resolved _ _ _ _ Hres).
  rewrite <- !app_assoc. simpl. eexists. reflexivity.
Qed.

(** X21. The TypeScript [analyzeOnPageSEO] has one way to throw, a link
    that does not resolve: when every link kept resolves it returns its
    record, with the readability of the TypeScript [calculateReadability],
    whatever the network and the readability heuristic answer. *)
Theorem TS_analyzeOnPageSEO_returns
  (env : Env) (html baseUrl : string) (urls : list string) (tr : trace) :
  Forall2 (fun link u => URL_href env link baseUrl = Some u)
          (extract_links (a_href (cheerio_load env html))) urls ->
  exists sd,
    TS.analyzeOnPageSEO env html baseUrl tr
    = (Return sd,
       tr ++ HttpGet (baseUrl ++ "/robots.txt")
          :: HttpGet (baseUrl ++ "/sitemap.xml") :: map HttpGet urls)
    /\ readability sd = VStr (TS.calculateReadability env html)
    /\ brokenLinks sd = broken_from env (S (S (n_gets tr))) urls.
Proof.
  intro Hres. unfold TS.analyzeOnPageSEO, checkRobotsTxt, checkSitemap.
  erewrite bind_return by apply probe_200_run.
  erewrite bind_return by apply probe_200_run.
  unfold findBrokenLinks.
  erewrite bind_return by apply (probe_links_resolved _ _ _ _ Hres).
  rewrite !n_gets_snoc, <- !app_assoc. simpl.
  eexists. repeat split.
Qed.

Lemma TS_analyzeOnPageSEO_returns_witness :
  exists sd,
    TS.analyzeOnPageSEO (Sample.no_article "") Sample.html_b Sample.site []
    = (Return sd,
       [HttpGet "https://example.com/robots.txt";
        HttpGet "https://example.com/sitemap.xml";
        HttpGet "https://example.com/b"])
    /\ readability sd = VStr ""
    /\ brokenLinks sd = 1.
Proof.
  apply (TS_analyzeOnPageSEO_returns (Sample.no_article "") Sample.html_b
           Sample.site ["https://example.com/b"] []).
  repeat constructor.
Defined.

(** ** The audit without progress events: [auditSite] *)

Lemma n_gets_chrome (tr : trace) (url : string) :
  n_gets (tr ++ [ChromeLaunch; LighthouseRun url; ChromeKill]) = n_gets tr.
Proof. rewrite n_gets_app. simpl. lia. Qed.

(** X22. When the page request is rejected, or answered with an empty
    body, [auditSite] returns [null] after that one request: Chrome is not
    launched and nothing is analysed. *)
Theorem auditSite_fetch_failure (env : Env) (url : string) (tr : trace) :
  match axios_get env (n_gets tr) url with
  | Resolved response => data response = ""
  | Rejected _ => True
  end ->
  auditSite env url tr = (Return None, tr ++ [HttpGet url]).
Proof.
  intro H. unfold auditSite.
  erewrite bind_return by apply fetchHTML_run.
  destruct (axios_get env (n_gets tr) url) as [response | message].
  - now rewrite H.
  - reflexivity.
Qed.

Lemma auditSite_fetch_failure_witness :
  auditSite Sample.offline Sample.site []
  = (Return None, [HttpGet Sample.site]).
Proof.
  apply (auditSite_fetch_failure Sample.offline Sample.site []).
  exact I.
Defined.

(** X23. When the page is fetched and the launch of Chrome or the
    Lighthouse run is rejected (the kill resolving), [auditSite] returns
    [null] and has sent no request but the page fetch: robots, sitemap and
    links are not probed. *)
Theorem auditSite_browser_failure (env : Env) (url : string) (tr : trace)
  (response : Response) (u : unit) :
  axios_get env (n_gets tr) url = Resolved response ->
  data response <> "" ->
  chrome_kill env = Return u ->
  (exists e, chrome_launch env = Throw e)
  \/ (exists e, lighthouse env url = Throw e) ->
  fst (auditSite env url tr) = Return None
  /\ requests (snd (auditSite env url tr)) = requests tr ++ [url].
Proof.
  intros Hget Hdata Hkill Hfail.
  assert (exists tail,
             auditSite env url tr = (Return None, (tr ++ [HttpGet url]) ++ tail)
             /\ requests tail = []) as [tail [Hrun Htail]].
  { unfold auditSite.
    erewrite bind_return by apply fetchHTML_run.
    rewrite Hget. destruct (data response) as [| c html] eqn:Hd; [congruence |].
    cbn [truthy_opt truthy negb or_empty].
    unfold bind. rewrite runLighthouseAudit_run, Hkill.
    destruct (chrome_launch env) as [[] | e].
    - destruct Hfail as [[e He] | [e He]]; [discriminate |]. rewrite He.
      eexists. split; reflexivity.
    - eexists. split; reflexivity. }
  rewrite Hrun. cbn [fst snd]. split; [reflexivity |].
  now rewrite !requests_app, Htail, app_nil_r.
Qed.

Lemma auditSite_browser_failure_witness :
  fst (auditSite Sample.audit_fails Sample.site []) = Return None
  /\ requests (snd (auditSite Sample.audit_fails Sample.site []))
     = [] ++ [Sample.site].
Proof.
  apply (auditSite_browser_failure Sample.audit_fails Sample.site []
           {| status := 200; data := Sample.html_full |} tt).
  - reflexivity.
  - discriminate.
  - reflexivity.
  - right. exists (ToolError "PROTOCOL_TIMEOUT"). reflexivity.
Defined.

(** X24. When the page is fetched, the browser audit succeeds with an SEO
    score between 0 and 1, every link resolves and the readability step has
    an article to read, [auditSite] returns an integer score between 0 and
    100, after the page fetch, the Chrome session, and the requests for
    robots, sitemap and each link, in this order. *)
Theorem auditSite_success (env : Env) (url : string) (tr : trace)
  (response : Response) (u u' : unit) (lhr : LighthouseResults)
  (c : Category) (urls : list string) :
  axios_get env (n_gets tr) url = Resolved response ->
  data response <> "" ->
  chrome_launch env = Return u ->
  lighthouse env url = Return lhr ->
  chrome_kill env = Return u' ->
  seo (categories lhr) = Some c ->
  (forall x, score c = Some x -> (0 <= x <= 1)%Q) ->
  Forall2 (fun link v => URL_href env link url = Some v)
          (extract_links (a_href (cheerio_load env (data response)))) urls ->
  isProbablyReaderable env (data response) = false
  \/ Readability_parse env (data response) <> None ->
  exists z,
    auditSite env url tr
    = (Return (Some {| AuditSite.seoScore := Num (inject_Z z) |}),
       tr ++ [HttpGet url; ChromeLaunch; LighthouseRun url; ChromeKill;
              HttpGet (url ++ "/robots.txt"); HttpGet (url ++ "/sitemap.xml")]
          ++ map HttpGet urls)
    /\ (0 <= z <= 100)%Z.
Proof.
  intros Hget Hdata Hlaunch Hlh Hkill Hseo Hx Hres Hread. unfold auditSite.
  erewrite bind_return by apply fetchHTML_run.
  rewrite Hget. destruct (data response) as [| ch html] eqn:Hd; [congruence |].
  cbn [truthy_opt truthy negb or_empty].
  erewrite bind_return
    by (rewrite runLighthouseAudit_run, Hlaunch, Hkill, Hlh; reflexivity).
  set (page := String ch html) in *.
  assert (exists v, calculateReadability env page = Return v) as [v Hv].
  { unfold calculateReadability.
    destruct Hread as [-> | Hp]; simpl; [eauto |].
    destruct (isProbablyReaderable env page); simpl; [| eauto].
    destruct (Readability_parse env page); [eauto | congruence]. }
  erewrite bind_return
    by (rewrite (analyzeOnPageSEO_run _ _ _ _ _ Hres), Hv; reflexivity).
  match goal with
  | |- context [generateSEOScore lhr ?sd] =>
      destruct (generateSEOScore_in_range lhr c sd Hseo Hx) as [z [Hz Hrange]];
      rewrite Hz
  end.
  exists z. split; [| assumption].
  unfold bind, lift, ret. rewrite <- !app_assoc. reflexivity.
Qed.

Lemma auditSite_success_witness :
  exists z,
    auditSite (Sample.online Sample.html_abc) Sample.site []
    = (Return (Some {| AuditSite.seoScore := Num (inject_Z z) |}),
       [] ++ [HttpGet Sample.site; ChromeLaunch; LighthouseRun Sample.site;
              ChromeKill;
              HttpGet (Sample.site ++ "/robots.txt");
              HttpGet (Sample.site ++ "/sitemap.xml")]
          ++ map HttpGet
               ["https://example.com/a"; "https://example.com/b";
                "https://example.com/c"])
    /\ (0 <= z <= 100)%Z.
Proof.
  apply (auditSite_success (Sample.online Sample.html_abc) Sample.site []
           {| status := 200; data := Sample.html_abc |} tt tt Sample.lhr
           {| score := Some 1%Q |}).
  - reflexivity.
  - discriminate.
  - reflexivity.
  - reflexivity.
  - reflexivity.
  - reflexivity.
  - intros x H. inversion H; subst. split; discriminate.
  - repeat constructor.
  - left. reflexivity.
Defined.

(** ** The TypeScript [auditSite] *)

Lemma TS_runLighthouseAudit_run (env : Env) (url : string) (tr : trace) :
  TS.runLighthouseAudit env url tr = runLighthouseAudit env url tr.
Proof.
  unfold TS.runLighthouseAudit, runLighthouseAudit.
  destruct (chrome_launch env) as [[] | e]; [| reflexivity].
  cbv [try_finally try_catch bind perform lift ret].
  destruct (lighthouse env url) as [[[p s a b]] | e]; reflexivity.
Qed.

(** X25. When the kill of Chrome resolves and every link of the page
    resolves, the TypeScript [auditSite] does not throw; it returns [null]
    exactly when the page request is rejected or answered with an empty
    body, or the launch of Chrome or the Lighthouse run is rejected; and a
    result carries the URL audited and the score of its own categories and
    SEO data. *)
Theorem TS_auditSite_result (env : Env) (url : string) (tr : trace) (u : unit) :
  chrome_kill env = Return u ->
  (forall response,
      axios_get env (n_gets tr) url = Resolved response ->
      exists urls,
        Forall2 (fun link v => URL_href env link url = Some v)
                (extract_links (a_href (cheerio_load env (data response))))
                urls) ->
  exists res,
    fst (TS.auditSite env url tr) = Return res
    /\ (res = None <->
        match axios_get env (n_gets tr) url with
        | Resolved response => data response = ""
        | Rejected _ => True
        end
        \/ (exists e, chrome_launch env = Throw e)
        \/ (exists e, lighthouse env url = Throw e))
    /\ (forall a, res = Some a ->
          TS.url a = url
          /\ TS.seoScore a
             = TS.generateSEOScore {| categories := TS.lighthouseResults a |}
                 (TS.seoData a)).
Proof.
  intros Hkill Hres. unfold TS.auditSite.
  erewrite bind_return by apply fetchHTML_run.
  destruct (axios_get env (n_gets tr) url) as [response | message] eqn:Hget.
  2:{ exists None. cbn. repeat split; auto; discriminate. }
  destruct (data response) as [| ch html] eqn:Hd.
  { exists None. cbn. repeat split; auto; discriminate. }
  cbn [truthy_opt truthy negb or_empty].
  unfold bind at 1.
  rewrite TS_runLighthouseAudit_run, runLighthouseAudit_run, Hkill.
  destruct (chrome_launch env) as [[] | e].
  2:{ exists None. cbn. repeat split; eauto; discriminate. }
  destruct (lighthouse env url) as [lhr | e].
  2:{ exists None. cbn. repeat split; eauto; discriminate. }
  destruct (Hres response eq_refl) as [urls Hurls]. rewrite Hd in Hurls.
  destruct (TS_analyzeOnPageSEO_run env (String ch html) url urls
              (tr ++ [HttpGet url] ++ [ChromeLaunch; LighthouseRun url; ChromeKill])
              Hurls) as [sd Hsd].
  rewrite app_assoc in Hsd.
  erewrite bind_return by exact Hsd.
  eexists. cbn. split; [reflexivity |]. split.
  - split; [discriminate |].
    intros [H | [[e H] | [e H]]]; discriminate.
  - intros a H. inversion H; subst. cbn. split; [reflexivity |].
    destruct lhr as [cats]. reflexivity.
Qed.

Lemma TS_auditSite_result_witness :
  exists res,
    fst (TS.auditSite (Sample.online Sample.html_abc) Sample.site [])
    = Return res
    /\ (res = None <->
        match axios_get (Sample.online Sample.html_abc) (n_gets [])
                Sample.site with
        | Resolved response => data response = ""
        | Rejected _ => True
        end
        \/ (exists e, chrome_launch (Sample.online Sample.html_abc) = Throw e)
        \/ (exists e,
               lighthouse (Sample.online Sample.html_abc) Sample.site = Throw e))
    /\ (forall a, res = Some a ->
          TS.url a = Sample.site
          /\ TS.seoScore a
             = TS.generateSEOScore {| categories := TS.lighthouseResults a |}
                 (TS.seoData a)).
Proof.
  apply (TS_auditSite_result (Sample.online Sample.html_abc) Sample.site [] tt).
  - reflexivity.
  - intros response H. inversion H; subst.
    exists ["https://example.com/a"; "https://example.com/b";
            "https://example.com/c"].
    repeat constructor.
Defined.

(** ** The handlers, continued *)

(** X26. A request without a [site] parameter, or with an empty one, is
    answered with status 400 and the body [{error: 'Site URL is
    required.'}] and nothing else: no header of the event stream is set,
    nothing is written, no request is sent. *)
Theorem auditWebsiteWithStreaming_missing_site
  (env : Env) (site : option string) (tr : trace) :
  site = None \/ site = Some "" ->
  auditWebsiteWithStreaming env site tr
  = (Return tt, tr ++ [Status400Json "Site URL is required."]).
Proof. intros [-> | ->]; reflexivity. Qed.

Lemma auditWebsiteWithStreaming_missing_site_witness :
  auditWebsiteWithStreaming Sample.offline None []
  = (Return tt, [Status400Json "Site URL is required."]).
Proof.
  apply (auditWebsiteWithStreaming_missing_site Sample.offline None []).
  left. reflexivity.
Defined.

(** X27. As [src/routes/audit.js] stands, a request with a site makes
    [auditWebsiteWithStreaming] set the three stream headers and throw
    [ReferenceError: WebsiteAudit is not defined] at [new WebsiteAudit()]:
    no event is written, no request is sent and the stream is not
    ended. *)
Theorem auditWebsiteWithStreaming_unbound_class
  (env : Env) (site : string) (tr : trace) :
  site <> "" ->
  auditWebsiteWithStreaming env (Some site) tr
  = (Throw (ReferenceError "WebsiteAudit is not defined"), tr ++ sse_headers).
Proof.
  intro Hsite. destruct site as [| c site]; [congruence |].
  unfold auditWebsiteWithStreaming, audit_handler.
  cbn [truthy_opt truthy negb or_empty].
  do 3 (erewrite bind_return by reflexivity).
  erewrite bind_throw by reflexivity.
  now rewrite <- !app_assoc.
Qed.

Lemma auditWebsiteWithStreaming_unbound_class_witness :
  auditWebsiteWithStreaming (Sample.online Sample.html_full)
    (Some Sample.site) []
  = (Throw (ReferenceError "WebsiteAudit is not defined"), [] ++ sse_headers).
Proof.
  apply auditWebsiteWithStreaming_unbound_class. discriminate.
Defined.

(** X28. In the inline handler of [part_001], where the class is
    imported: when the page is fetched with a non-empty body and the kill
    of Chrome resolves, the terminal event is
    [{error: 'lighthouseResults is not defined'}], after the two progress
    events [Fetching HTML...] and [Running Lighthouse audit...], whether
    Chrome and Lighthouse succeeded or not; the stream is then ended. *)
Theorem inline_handler_reference_error (env : Env) (site : string)
  (response : Response) (u : unit) :
  site <> "" ->
  axios_get env 0 site = Resolved response ->
  data response <> "" ->
  chrome_kill env = Return u ->
  exists pre,
    inline_run_request env (Some site)
    = pre ++ [ResWrite (Error "lighthouseResults is not defined"); ResEnd]
    /\ writes pre
       = [Progress "Fetching HTML..."; Progress "Running Lighthouse audit..."].
Proof.
  intros Hsite Hget Hdata Hkill.
  unfold inline_run_request, inline_audit_handler.
  rewrite (audit_handler_run env [("WebsiteAudit", WebsiteAudit_class env)]
             site [] Hsite eq_refl).
  rewrite auditSiteWithProgress_run. cbn [app sse_headers n_gets].
  unfold fetch_failed. rewrite Hget.
  destruct (data response) as [| c html]; [congruence |].
  cbn [truthy negb]. rewrite runLighthouseAudit_run, Hkill.
  destruct (chrome_launch env) as [[] | e]; cbn [fst snd terminal_event error_message];
    eexists; (split; [reflexivity |]); reflexivity.
Qed.

Lemma inline_handler_reference_error_witness :
  exists pre,
    inline_run_request Sample.audit_fails (Some Sample.site)
    = pre ++ [ResWrite (Error "lighthouseResults is not defined"); ResEnd]
    /\ writes pre
       = [Progress "Fetching HTML..."; Progress "Running Lighthouse audit..."].
Proof.
  apply (inline_handler_reference_error Sample.audit_fails Sample.site
           {| status := 200; data := Sample.html_full |} tt).
  - discriminate.
  - reflexivity.
  - discriminate.
  - reflexivity.
Defined.
